(** * Tile addressing and raster windowing of the serverless tile handler

    A shallow embedding of [src/functions/handler.ts] (module [Handler]) and
    of the earlier variant of the same handler kept in the repository
    (module [Variant]), with the properties of the tile pipeline stated
    against it.

    Numbers.  There are two models of a JavaScript number.

    [num] is the idealised one: [NaN], the two infinities, or a finite
    value carried as an exact rational.  Its arithmetic follows the IEEE
    rules for the special values (NaN propagation, division by zero,
    [Infinity - Infinity]) and is exact on finite values: rounding,
    overflow and the sign of zero are outside it.  Finite results are kept
    in lowest terms, so that equal values are equal terms.  The control
    flow of the handler, the propagation of [NaN], the rounding to pixels
    and the clamp of the window are stated over it.

    [Binary64.number] is the real one: an IEEE 754 binary64 value, every
    operation rounded as the language rounds it.  The values of
    [getResolution] and [tileToWebMercator] depend on that rounding, and
    what is said of them is said in module [Binary64]. *)

From Stdlib Require Import QArith Qround Qreduction Qcanon Qpower ZArith Lia Lqa.
From Stdlib Require Import Ascii String.
From Stdlib Require Floats.
From stdpp Require Import gmap strings list fin_maps.

(** ** JavaScript numbers *)

Inductive num : Type :=
| NaN
| NInf
| Fin (q : Q)
| PInf.

Declare Scope num_scope.
Delimit Scope num_scope with num.
Bind Scope num_scope with num.

(** An integer literal or integer-valued variable as a number. *)
Definition int (n : Z) : num := Fin (inject_Z n).

(** -1, 0 or 1 according to the sign of a rational. *)
Definition Qsgn (q : Q) : Z := Z.sgn (Qnum q).

Definition add (a b : num) : num :=
  match a, b with
  | NaN, _ | _, NaN => NaN
  | PInf, NInf | NInf, PInf => NaN
  | PInf, _ | _, PInf => PInf
  | NInf, _ | _, NInf => NInf
  | Fin p, Fin q => Fin (Qplus' p q)
  end.

Definition sub (a b : num) : num :=
  match a, b with
  | NaN, _ | _, NaN => NaN
  | PInf, PInf | NInf, NInf => NaN
  | PInf, _ | _, NInf => PInf
  | NInf, _ | _, PInf => NInf
  | Fin p, Fin q => Fin (Qminus' p q)
  end.

(** The infinity of the given sign; [NaN] for sign 0 (a product
    [0 * Infinity]). *)
Definition inf_of_sign (s : Z) : num :=
  match s with
  | Z0 => NaN
  | Zpos _ => PInf
  | Zneg _ => NInf
  end.

Definition mul (a b : num) : num :=
  match a, b with
  | NaN, _ | _, NaN => NaN
  | PInf, PInf | NInf, NInf => PInf
  | PInf, NInf | NInf, PInf => NInf
  | PInf, Fin q | Fin q, PInf => inf_of_sign (Qsgn q)
  | NInf, Fin q | Fin q, NInf => inf_of_sign (- Qsgn q)
  | Fin p, Fin q => Fin (Qmult' p q)
  end.

Definition div (a b : num) : num :=
  match a, b with
  | NaN, _ | _, NaN => NaN
  | (PInf | NInf), (PInf | NInf) => NaN
  | PInf, Fin q => if (Qsgn q <? 0)%Z then NInf else PInf
  | NInf, Fin q => if (Qsgn q <? 0)%Z then PInf else NInf
  | Fin _, (PInf | NInf) => Fin 0%Q
  | Fin p, Fin q =>
      if (Qsgn q =? 0)%Z then inf_of_sign (Qsgn p) else Fin (Qred (p / q)%Q)
  end.

Infix "+" := add : num_scope.
Infix "-" := sub : num_scope.
Infix "*" := mul : num_scope.
Infix "/" := div : num_scope.

(** [a < b] of JavaScript: false as soon as one side is [NaN]. *)
Definition ltb (a b : num) : bool :=
  match a, b with
  | NaN, _ | _, NaN => false
  | _, NInf => false
  | NInf, _ => true
  | PInf, _ => false
  | _, PInf => true
  | Fin p, Fin q => negb (Qle_bool q p)
  end.

Module Math.

(** [Math.round]: the nearest integer, a tie going up. *)
Definition round (a : num) : num :=
  match a with
  | Fin q => int (Qfloor (q + (1 # 2))%Q)
  | _ => a
  end.

Definition min (a b : num) : num :=
  match a, b with
  | NaN, _ | _, NaN => NaN
  | NInf, _ | _, NInf => NInf
  | PInf, c | c, PInf => c
  | Fin p, Fin q => if Qle_bool p q then a else b
  end.

Definition max (a b : num) : num :=
  match a, b with
  | NaN, _ | _, NaN => NaN
  | PInf, _ | _, PInf => PInf
  | NInf, c | c, NInf => c
  | Fin p, Fin q => if Qle_bool p q then b else a
  end.

(** The integer a rational stands for, if it is one. *)
Definition integer_of (q : Q) : option Z :=
  let r := Qred q in
  if (Z.pos (Qden r) =? 1)%Z then Some (Qnum r) else None.

(** [Math.pow(2, e)].  The handler raises 2 to the result of [parseInt]
    only, which is [NaN] or an integer, and the power is exact there.  For
    a fractional exponent the value is irrational and has no
    representation in [num]; the model answers [NaN] on that part of the
    domain, which no call of the handler reaches. *)
Definition pow2 (e : num) : num :=
  match e with
  | NaN => NaN
  | NInf => Fin 0%Q
  | PInf => PInf
  | Fin q =>
      match integer_of q with
      | Some n => Fin (Qred (2 ^ n)%Q)
      | None => NaN
      end
  end.

End Math.

(** ** [parseInt]

    [parseInt(s)] with no radix: leading white space is skipped, a sign is
    read, a [0x]/[0X] prefix selects base 16, and the longest prefix of
    digits is the value; with no digit the result is [NaN].  White space is
    the ASCII part of the language's white space and line terminators. *)

Definition is_space (c : ascii) : bool :=
  let n := N_of_ascii c in
  ((n =? 9) || (n =? 10) || (n =? 11) || (n =? 12) || (n =? 13) || (n =? 32))%N.

Fixpoint skip_space (s : string) : string :=
  match s with
  | String c s' => if is_space c then skip_space s' else s
  | EmptyString => s
  end.

(** The value of a digit in the given radix (10 or 16). *)
Definition digit_of (radix : Z) (c : ascii) : option Z :=
  let n := Z.of_N (N_of_ascii c) in
  let v :=
    if (48 <=? n)%Z && (n <=? 57)%Z then Some (n - 48)%Z
    else if (97 <=? n)%Z && (n <=? 102)%Z then Some (n - 87)%Z
    else if (65 <=? n)%Z && (n <=? 70)%Z then Some (n - 55)%Z
    else None in
  match v with
  | Some d => if (d <? radix)%Z then Some d else None
  | None => None
  end.

(** Reads digits while there are some: [acc] is [None] until the first
    digit is seen. *)
Fixpoint read_digits (radix : Z) (acc : option Z) (s : string) : option Z :=
  match s with
  | String c s' =>
      match digit_of radix c with
      | Some d =>
          read_digits radix (Some (match acc with
                                   | Some a => a * radix + d
                                   | None => d
                                   end)%Z) s'
      | None => acc
      end
  | EmptyString => acc
  end.

Definition parseInt (s : string) : num :=
  let s1 := skip_space s in
  let '(sign, s2) :=
    match s1 with
    | String "-" r => ((-1)%Z, r)
    | String "+" r => (1%Z, r)
    | _ => (1%Z, s1)
    end in
  let '(radix, s3) :=
    match s2 with
    | String "0" (String "x" r) | String "0" (String "X" r) => (16%Z, r)
    | _ => (10%Z, s2)
    end in
  match read_digits radix None s3 with
  | Some v => int (sign * v)
  | None => NaN
  end.

(** ** Exceptions and promises

    An [async] function that awaits its steps one after the other is a
    sequence in the exception monad: a step returns a value or throws, and
    a throw (a rejected promise) skips the rest.  A promise that never
    settles is outside the model. *)

Inductive exn : Type :=
| TypeError (message : string)
| Failure (message : string).

(** The text [`${error}`] puts in the response. *)
Definition exn_toString (e : exn) : string :=
  match e with
  | TypeError m => "TypeError: " +:+ m
  | Failure m => "Error: " +:+ m
  end.

Inductive outcome (A : Type) : Type :=
| Return (a : A)
| Throw (e : exn).
Arguments Return {A} a.
Arguments Throw {A} e.

Definition bind {A B : Type} (m : outcome A) (k : A -> outcome B) : outcome B :=
  match m with
  | Return a => k a
  | Throw e => Throw e
  end.

Notation "'let*' x ':=' m 'in' k" := (bind m (fun x => k))
  (at level 10, x pattern, m at level 100, k at level 200).

(** ** The collaborators

    What the handler reaches through its imports: the signed-URL issuer,
    the raster decoder ([geotiff]), the image encoder ([sharp]) and the
    base64 rendering of a buffer.  They are parameters of the model; each
    call may throw. *)

(** [[minX, minY, maxX, maxY]], and any other array of four numbers. *)
Definition tuple4 : Type := (num * num * num * num)%type.

(** The result of [readRasters]: one array of samples per band.  Samples
    are integers, as in the integer typed arrays of the decoder. *)
Definition rasters : Type := list (list Z).

Module GeoTIFF.

Record Image : Type := {
  getWidth : num;
  getHeight : num;
  (** the first two entries of [getOrigin()] *)
  getOrigin : num * num;
  (** absent when the accessor has no such member: the code tests it *)
  getResolution : option num;
  getBoundingBox : outcome tuple4;
  (** [readRasters({ window })] *)
  readRasters : tuple4 -> outcome rasters
}.

End GeoTIFF.

Record Collaborators : Type := {
  (** [const { fromUrl } = await import('geotiff')]; [fromUrl(url)] stands
      for the call followed by [getImage()] on its result *)
  import_geotiff : outcome (string -> outcome GeoTIFF.Image);
  getSignedUrl : outcome string;
  (** [sharp(buffer, {raw: {width, height, channels}}).png().toBuffer()] *)
  sharp_png : list Z -> nat -> nat -> nat -> outcome (list Z);
  (** [buffer.toString('base64')] *)
  base64 : list Z -> string
}.

Record TiffData : Type := {
  buffer : list Z;
  contentType : string
}.

(** ** Requests and responses *)

Record APIGatewayProxyEvent : Type := {
  (** [null] when the route has no path parameter *)
  pathParameters : option (gmap string string)
}.

Inductive response_body : Type :=
| Base64Body (text : string)
(** [JSON.stringify({ error: message })] *)
| ErrorBody (message : string).

Record APIGatewayProxyResult : Type := {
  statusCode : Z;
  headers : list (string * string);
  body : response_body;
  isBase64Encoded : option bool
}.

(** [const { z, x, y } = event.pathParameters]: destructuring [null]
    throws; a missing member is [undefined], which [parseInt] reads as the
    text "undefined". *)
Definition destructure (event : APIGatewayProxyEvent)
  : outcome (string * string * string) :=
  match pathParameters event with
  | None => Throw (TypeError "Cannot destructure property 'z' of 'event.pathParameters' as it is null.")
  | Some p =>
      let member k := default "undefined" (p !! k) in
      Return (member "z", member "x", member "y")
  end.

(** ** Writing into a [Buffer] *)

(** What a byte array stores when a number is assigned to an element. *)
Definition toUint8 (v : Z) : Z := v mod 256.

(** [band[i]] as stored into a byte: [undefined] past the end, stored
    as 0. *)
Definition sample (band : list Z) (i : nat) : Z :=
  match band !! i with
  | Some v => toUint8 v
  | None => 0
  end.

(** [rasters[k][i]]: reading an element of the missing band
    [rasters[k] = undefined] throws. *)
Definition band_sample (r : rasters) (k i : nat) : outcome Z :=
  match r !! k with
  | Some band => Return (sample band i)
  | None => Throw (TypeError "Cannot read properties of undefined")
  end.

(** [for (let i = start; i < start + n; i++) body] over a state. *)
Fixpoint for_loop {St : Type} (body : nat -> St -> outcome St)
    (n start : nat) (s : St) : outcome St :=
  match n with
  | O => Return s
  | S n' => let* s' := body start s in for_loop body n' (S start) s'
  end.

(** The body of the interleaving loop, shared by the two versions of the
    handler, which differ by the alpha byte only. *)
Definition interleave_pixel (alpha : Z) (r : rasters) (i : nat)
    (rgbaBuffer : list Z) : outcome (list Z) :=
  let* red := band_sample r 0 i in
  let rgbaBuffer := <[(i * 4)%nat := red]> rgbaBuffer in
  let* green := band_sample r 1 i in
  let rgbaBuffer := <[(i * 4 + 1)%nat := green]> rgbaBuffer in
  let* blue := band_sample r 2 i in
  let rgbaBuffer := <[(i * 4 + 2)%nat := blue]> rgbaBuffer in
  Return (<[(i * 4 + 3)%nat := alpha]> rgbaBuffer).

(** [Buffer.alloc(width * height * 4)] followed by the loop. *)
Definition interleave (alpha : Z) (r : rasters) (width height : nat)
  : outcome (list Z) :=
  for_loop (interleave_pixel alpha r) (width * height) 0
           (replicate (width * height * 4) 0%Z).

Definition cors_headers : list (string * string) :=
  [ ("Access-Control-Allow-Origin", "*");
    ("Access-Control-Allow-Headers",
     "Content-Type,X-Amz-Date,Authorization,X-Api-Key,X-Amz-Security-Token,X-Amz-User-Agent,Access-Control-Allow-Origin");
    ("Access-Control-Allow-Methods", "OPTIONS,GET") ].

(** The two branches of [try { ... } catch (error) { ... }] in [tile]. *)
Definition ok_response (env : Collaborators) (data : TiffData)
  : APIGatewayProxyResult :=
  {| statusCode := 200;
     headers := ("Content-Type", contentType data) :: cors_headers;
     body := Base64Body (base64 env (buffer data));
     isBase64Encoded := Some true |}.

Definition error_response (error : exn) : APIGatewayProxyResult :=
  {| statusCode := 500;
     headers := cors_headers;
     body := ErrorBody ("An error occurred " +:+ exn_toString error);
     isBase64Encoded := None |}.

Definition try_catch (body : outcome APIGatewayProxyResult)
  : APIGatewayProxyResult :=
  match body with
  | Return r => r
  | Throw error => error_response error
  end.

(** ** [src/functions/handler.ts] *)

Module Handler.

(** Constants *)
Definition tileSize : nat := 256.
Definition webMercatorExtent : num := Fin 20037508.3427892%Q.

(** [tileSize] where the code uses it in arithmetic. *)
Definition tileSize_num : num := int (Z.of_nat tileSize).

Definition getResolution (z : num) : num :=
  ((int 2 * webMercatorExtent) / (tileSize_num * Math.pow2 z))%num.

(** Function to convert tile coordinates to Web Mercator coordinates *)
Definition tileToWebMercator (x y z : num) : tuple4 :=
  let resolution := getResolution z in
  let minX := (x * tileSize_num * resolution - webMercatorExtent)%num in
  let maxY := (webMercatorExtent - y * tileSize_num * resolution)%num in
  let maxX :=
    ((x + int 1) * tileSize_num * resolution - webMercatorExtent)%num in
  let minY :=
    (webMercatorExtent - (y + int 1) * tileSize_num * resolution)%num in
  (minX, minY, maxX, maxY).

(** [image.getResolution ? image.getResolution()
                          : webMercatorExtent * 2 / imageWidth] *)
Definition imageResolution (image : GeoTIFF.Image) : num :=
  match GeoTIFF.getResolution image with
  | Some r => r
  | None => (webMercatorExtent * int 2 / GeoTIFF.getWidth image)%num
  end.

(** Function to convert Web Mercator coordinates to pixel coordinates.
    No call of it is left in the file: [fetchTiffData] passes the
    projected box to [readRasters] as it is. *)
Definition webMercatorToPixel (bbox : tuple4) (image : GeoTIFF.Image)
  : tuple4 :=
  let '(minX, minY, maxX, maxY) := bbox in
  let imageWidth := GeoTIFF.getWidth image in
  let imageHeight := GeoTIFF.getHeight image in
  let '(imageMinX, imageMaxY) := GeoTIFF.getOrigin image in
  let imageResolution := imageResolution image in
  let pixelMinX := Math.round ((minX - imageMinX) / imageResolution) in
  let pixelMaxY := Math.round ((imageMaxY - minY) / imageResolution) in
  let pixelMaxX := Math.round ((maxX - imageMinX) / imageResolution) in
  let pixelMinY := Math.round ((imageMaxY - maxY) / imageResolution) in
  (* Ensure pixel values are within the image dimensions *)
  let boundedPixelMinX := Math.max (int 0) (Math.min pixelMinX imageWidth) in
  let boundedPixelMaxX := Math.max (int 0) (Math.min pixelMaxX imageWidth) in
  let boundedPixelMinY := Math.max (int 0) (Math.min pixelMinY imageHeight) in
  let boundedPixelMaxY := Math.max (int 0) (Math.min pixelMaxY imageHeight) in
  (boundedPixelMinX, boundedPixelMinY, boundedPixelMaxX, boundedPixelMaxY).

(** The interleaved RGBA buffer [convertRastersToPng] builds before it
    calls the encoder; the alpha byte is 0. *)
Definition rgbaBuffer (r : rasters) (width height : nat) : outcome (list Z) :=
  interleave 0 r width height.

(** Function to convert rasters to PNG using sharp *)
Definition convertRastersToPng (env : Collaborators) (r : rasters)
    (width height : nat) : outcome (list Z) :=
  let* rgba := rgbaBuffer r width height in
  sharp_png env rgba width height 4%nat.

Definition fetchTiffData (env : Collaborators) (bbox : tuple4)
    (tileSize : nat) : outcome TiffData :=
  let* fromUrl := import_geotiff env in
  let* url := getSignedUrl env in
  let* image := fromUrl url in
  let* _ := GeoTIFF.getBoundingBox image in
  let* r := GeoTIFF.readRasters image bbox in
  let* png := convertRastersToPng env r tileSize tileSize in
  Return {| buffer := png; contentType := "image/png" |}.

(** The body of the [try] block of [tile]. *)
Definition tile_try (env : Collaborators) (event : APIGatewayProxyEvent)
  : outcome APIGatewayProxyResult :=
  let* (z, x, y) := destructure event in
  let webMercatorBbox :=
    tileToWebMercator (parseInt x) (parseInt y) (parseInt z) in
  let* data := fetchTiffData env webMercatorBbox tileSize in
  Return (ok_response env data).

Definition tile (env : Collaborators) (event : APIGatewayProxyEvent)
  : APIGatewayProxyResult :=
  try_catch (tile_try env event).

End Handler.

(** ** The earlier version of the handler

    The second source file of the repository: the same pipeline with the
    bounding box computed in [tile] itself, from a resolution of
    [0.00028 * 2^z] and with no shift by the extent and no inversion of the
    row axis, and with the alpha byte 255. *)

Module Variant.

Definition rgbaBuffer (r : rasters) (width height : nat) : outcome (list Z) :=
  interleave 255 r width height.

Definition convertRastersToPng (env : Collaborators) (r : rasters)
    (width height : nat) : outcome (list Z) :=
  let* rgba := rgbaBuffer r width height in
  sharp_png env rgba width height 4%nat.

Definition fetchTiffData (env : Collaborators) (bbox : tuple4)
    (tileSize : nat) : outcome TiffData :=
  let* fromUrl := import_geotiff env in
  let* url := getSignedUrl env in
  let* image := fromUrl url in
  let* r := GeoTIFF.readRasters image bbox in
  let* png := convertRastersToPng env r tileSize tileSize in
  Return {| buffer := png; contentType := "image/png" |}.

(** Calculate the bounding box for the tile *)
Definition tile_bbox (x y z : string) : tuple4 :=
  let tileSize := int 256 in
  let resolution := (Fin 0.00028%Q * Math.pow2 (parseInt z))%num in
  ((parseInt x * tileSize * resolution)%num,
   (parseInt y * tileSize * resolution)%num,
   ((parseInt x + int 1) * tileSize * resolution)%num,
   ((parseInt y + int 1) * tileSize * resolution)%num).

Definition tile_try (env : Collaborators) (event : APIGatewayProxyEvent)
  : outcome APIGatewayProxyResult :=
  let* (z, x, y) := destructure event in
  let bbox := tile_bbox x y z in
  let* data := fetchTiffData env bbox 256%nat in
  Return (ok_response env data).

Definition tile (env : Collaborators) (event : APIGatewayProxyEvent)
  : APIGatewayProxyResult :=
  try_catch (tile_try env event).

End Variant.

(** ** The contract of the specification, in exact arithmetic

    The formulas of the tile-addressing contract, over the rationals and
    with the tile size and the half extent as parameters, to compare the
    handler's functions with. *)

Module Spec.

Definition resolution (tileSizePixels planarHalfExtent : Q) (zoom : Z) : Q :=
  ((2 * planarHalfExtent) / (tileSizePixels * 2 ^ zoom))%Q.

Record BBox : Type := {
  minX : Q;
  minY : Q;
  maxX : Q;
  maxY : Q
}.

Definition tileToBBox (zoom column row : Z)
    (tileSizePixels planarHalfExtent : Q) : BBox :=
  let res := resolution tileSizePixels planarHalfExtent zoom in
  {| minX := inject_Z column * tileSizePixels * res - planarHalfExtent;
     maxX := inject_Z (column + 1) * tileSizePixels * res - planarHalfExtent;
     maxY := planarHalfExtent - inject_Z row * tileSizePixels * res;
     minY := planarHalfExtent - inject_Z (row + 1) * tileSizePixels * res |}%Q.

(** The values the handler fixes for the two parameters. *)
Definition tileSizePixels : Q := 256.
Definition planarHalfExtent : Q := 20037508.3427892.

End Spec.

(** A box of rationals as the array of numbers the handler returns. *)
Definition of_BBox (b : Spec.BBox) : tuple4 :=
  (Fin (Qred (Spec.minX b)), Fin (Qred (Spec.minY b)),
   Fin (Qred (Spec.maxX b)), Fin (Qred (Spec.maxY b))).

(** The entries of [[minX, minY, maxX, maxY]]. *)
Definition bbox_minX (b : tuple4) : num := b.1.1.1.
Definition bbox_minY (b : tuple4) : num := b.1.1.2.
Definition bbox_maxX (b : tuple4) : num := b.1.2.
Definition bbox_maxY (b : tuple4) : num := b.2.

(** The projected extent of a whole raster, under the transform
    [webMercatorToPixel] inverts: the origin is the top-left corner, a pixel
    is [imageResolution] wide and high, and rows go down. *)
Definition fullExtent (image : GeoTIFF.Image) : tuple4 :=
  let '(imageMinX, imageMaxY) := GeoTIFF.getOrigin image in
  let res := Handler.imageResolution image in
  (imageMinX,
   (imageMaxY - GeoTIFF.getHeight image * res)%num,
   (imageMinX + GeoTIFF.getWidth image * res)%num,
   imageMaxY).

(** Some entry of the array is [NaN]. *)
Definition is_NaN (a : num) : bool :=
  match a with
  | NaN => true
  | _ => false
  end.

Definition has_NaN (b : tuple4) : bool :=
  is_NaN (bbox_minX b) || is_NaN (bbox_minY b)
  || is_NaN (bbox_maxX b) || is_NaN (bbox_maxY b).

(** A response the transport reports as a failure of the client. *)
Definition client_failure (r : APIGatewayProxyResult) : Prop :=
  (400 <= statusCode r < 500)%Z.

(** The path parameters are there and one of them has no leading integer. *)
Definition malformed_address (event : APIGatewayProxyEvent) : Prop :=
  exists p : gmap string string,
    pathParameters event = Some p /\
    (parseInt (default "undefined" (p !! "z")) = NaN \/
     parseInt (default "undefined" (p !! "x")) = NaN \/
     parseInt (default "undefined" (p !! "y")) = NaN).

(** The two steps of [webMercatorToPixel] on finite values: the pixel
    index of an offset from the origin, and the clamp
    [Math.max(0, Math.min(p, limit))]. *)
Definition pixel_index (offset res : Q) : Z :=
  Qfloor (offset / res + (1 # 2))%Q.

Definition Qclamp (p limit : Q) : Q :=
  let m := if Qle_bool p limit then p else limit in
  if Qle_bool 0 m then m else 0%Q.

(** ** Sample inputs *)

Module Sample.

(** A raster of 512 x 256 pixels of 2 units, with its top-left corner at
    (100, 1000); its decoder finds no data. *)
Definition image : GeoTIFF.Image :=
  {| GeoTIFF.getWidth := int 512;
     GeoTIFF.getHeight := int 256;
     GeoTIFF.getOrigin := (int 100, int 1000);
     GeoTIFF.getResolution := Some (int 2);
     GeoTIFF.getBoundingBox := Return (int 100, int 488, int 1124, int 1000);
     GeoTIFF.readRasters := fun _ => Throw (Failure "no data in window") |}.

(** A box to the left of that raster. *)
Definition bbox_outside : tuple4 := (int (-100), int 488, int 0, int 1000).

(** A box inside it. *)
Definition bbox_inside : tuple4 := (int 200, int 600, int 300, int 700).

Definition env : Collaborators :=
  {| import_geotiff := Return (fun _ => Return image);
     getSignedUrl := Return "https://bucket/output_cog.tif";
     sharp_png := fun rgba _ _ _ => Return rgba;
     base64 := fun _ => EmptyString |}.

(** [/abc/1/2]: the zoom is not a number. *)
Definition event_bad_zoom : APIGatewayProxyEvent :=
  {| pathParameters :=
       Some (<["z" := "abc"]> (<["x" := "1"]> (<["y" := "2"]> ∅))) |}.

(** Two bands of one sample, and three. *)
Definition two_bands : rasters := [[10%Z]; [20%Z]].
Definition three_bands : rasters := [[10%Z]; [20%Z]; [30%Z]].

End Sample.

(** The box [tile] computes from the path parameters [p], in each of the
    two versions. *)
Definition address_box (p : gmap string string) : tuple4 :=
  Handler.tileToWebMercator
    (parseInt (default "undefined" (p !! "x")))
    (parseInt (default "undefined" (p !! "y")))
    (parseInt (default "undefined" (p !! "z"))).

Definition variant_address_box (p : gmap string string) : tuple4 :=
  Variant.tile_bbox
    (default "undefined" (p !! "x"))
    (default "undefined" (p !! "y"))
    (default "undefined" (p !! "z")).

(** Further sample inputs: a well-formed request and decoders that return
    bands. *)

Module Fixture.

(** [/3/1/2] *)
Definition params_ok : gmap string string :=
  <["z" := "3"]> (<["x" := "1"]> (<["y" := "2"]> ∅)).

Definition event_ok : APIGatewayProxyEvent :=
  {| pathParameters := Some params_ok |}.

(** A request with no path parameter. *)
Definition event_null : APIGatewayProxyEvent :=
  {| pathParameters := None |}.

(** The sample raster with a decoder that returns the given bands. *)
Definition image_of (bands : rasters) : GeoTIFF.Image :=
  {| GeoTIFF.getWidth := int 512;
     GeoTIFF.getHeight := int 256;
     GeoTIFF.getOrigin := (int 100, int 1000);
     GeoTIFF.getResolution := Some (int 2);
     GeoTIFF.getBoundingBox := Return (int 100, int 488, int 1124, int 1000);
     GeoTIFF.readRasters := fun _ => Return bands |}.

(** The same with no georeferencing: [getBoundingBox] throws. *)
Definition image_unreferenced (bands : rasters) : GeoTIFF.Image :=
  {| GeoTIFF.getWidth := int 512;
     GeoTIFF.getHeight := int 256;
     GeoTIFF.getOrigin := (int 100, int 1000);
     GeoTIFF.getResolution := Some (int 2);
     GeoTIFF.getBoundingBox :=
       Throw (Failure "The image does not have an affine transformation.");
     GeoTIFF.readRasters := fun _ => Return bands |}.

Definition env_of (image : GeoTIFF.Image) : Collaborators :=
  {| import_geotiff := Return (fun _ => Return image);
     getSignedUrl := Return "https://bucket/output_cog.tif";
     sharp_png := fun rgba _ _ _ => Return rgba;
     base64 := fun _ => "base64" |}.

(** Bands of two samples, one of them out of the range of a byte, and a
    fourth band. *)
Definition wide_bands : rasters :=
  [[10%Z; 300%Z]; [20%Z; (-1)%Z]; [30%Z; 255%Z]].
Definition extra_band : rasters := [[77%Z; 78%Z]].

(** A raster of the whole world, 1024 x 512 pixels, whose accessor has no
    [getResolution]. *)
Definition world_image : GeoTIFF.Image :=
  {| GeoTIFF.getWidth := int 1024;
     GeoTIFF.getHeight := int 512;
     GeoTIFF.getOrigin :=
       (Fin (- Spec.planarHalfExtent), Fin Spec.planarHalfExtent);
     GeoTIFF.getResolution := None;
     GeoTIFF.getBoundingBox := Throw (Failure "not used");
     GeoTIFF.readRasters := fun _ => Throw (Failure "not used") |}.

End Fixture.

(** ** The accessor of the decoder

    The handler opens the raster with the [geotiff] library, which is not
    part of the repository.  Its image accessor is modelled on the
    library's interface: [getOrigin()] and [getResolution()] return arrays
    [[x, y, z]].  The handler destructures the first and divides by the
    second. *)

(** [Number(a)] of an array [a], which is what a division makes of an
    array operand: the empty array is 0, an array of one number is that
    number, and a longer array, whose text has a comma, is [NaN]. *)
Definition ToNumber_array (a : list num) : num :=
  match a with
  | [] => int 0
  | [x] => x
  | _ => NaN
  end.

Definition geotiff_image (width height : num)
    (origin resolution : num * num * num)
    (boundingBox : outcome tuple4) (read : tuple4 -> outcome rasters)
  : GeoTIFF.Image :=
  let '(originX, originY, _) := origin in
  let '(resX, resY, resZ) := resolution in
  {| GeoTIFF.getWidth := width;
     GeoTIFF.getHeight := height;
     GeoTIFF.getOrigin := (originX, originY);
     GeoTIFF.getResolution := Some (ToNumber_array [resX; resY; resZ]);
     GeoTIFF.getBoundingBox := boundingBox;
     GeoTIFF.readRasters := read |}.

(** ** Tile addressing in binary64

    [getResolution], [tileToWebMercator] and the box of the earlier version
    over the numbers of the language: IEEE 754 binary64 values, every
    operation rounded to nearest, ties to even. *)

Module Binary64.

Import PrimFloat FloatOps SpecFloat.
Import PrimFloat.PrimFloatNotations.
#[local] Set Warnings "-inexact-float".
#[local] Open Scope float_scope.

Definition number : Type := float.

(** [Number(n)] of an integer: the nearest binary64 value.  Below [2^53]
    every integer is a value and the conversion is exact. *)
Definition of_Z (n : Z) : number :=
  match n with
  | Z0 => 0
  | Zpos p =>
      if (n <? 9007199254740992)%Z then of_uint63 (Uint63.of_Z n)
      else SF2Prim (binary_normalize prec emax n 0 false)
  | Zneg p =>
      if (-9007199254740992 <? n)%Z then - of_uint63 (Uint63.of_Z (Zpos p))
      else SF2Prim (binary_normalize prec emax n 0 false)
  end.

(** [parseInt(s)] as a number: the integer read from the text, rounded.
    (The sign of a zero read from [-0] is not kept; no entry of a box
    depends on it.) *)
Definition parseInt (s : string) : number :=
  match parseInt s with
  | Fin q => of_Z (Qnum q)
  | _ => nan
  end.

(** The integer a number stands for, if it is a finite integer. *)
Definition integer_value (a : number) : option Z :=
  match Prim2SF a with
  | S754_zero _ => Some 0%Z
  | S754_finite s m e =>
      let magnitude :=
        if (0 <=? e)%Z then Some (Zpos m * 2 ^ e)%Z
        else if (Zpos m mod 2 ^ (- e) =? 0)%Z then Some (Zpos m / 2 ^ (- e))%Z
        else None in
      match magnitude with
      | Some v => Some (if s then (- v)%Z else v)
      | None => None
      end
  | _ => None
  end.

(** [Math.pow(2, e)].  For an integer [e] the result is the power of two
    itself when it is a value, [Infinity] above [2^1023] and 0 below
    [2^-1074].  For a fractional [e], which [parseInt] never produces, the
    model answers [NaN]. *)
Definition pow2 (e : number) : number :=
  match Prim2SF e with
  | S754_nan => nan
  | S754_infinity false => infinity
  | S754_infinity true => 0
  | _ =>
      match integer_value e with
      | Some n => Z.ldexp 1 n
      | None => nan
      end
  end.

(** Constants *)
Definition tileSize : number := 256.
Definition webMercatorExtent : number := 20037508.3427892.

Definition getResolution (z : number) : number :=
  (2 * webMercatorExtent) / (tileSize * pow2 z).

Definition bbox : Type := (number * number * number * number)%type.

(** Function to convert tile coordinates to Web Mercator coordinates *)
Definition tileToWebMercator (x y z : number) : bbox :=
  let resolution := getResolution z in
  let minX := x * tileSize * resolution - webMercatorExtent in
  let maxY := webMercatorExtent - y * tileSize * resolution in
  let maxX := (x + 1) * tileSize * resolution - webMercatorExtent in
  let minY := webMercatorExtent - (y + 1) * tileSize * resolution in
  (minX, minY, maxX, maxY).

(** The bounding box of the earlier version of [tile]. *)
Definition tile_bbox (x y z : string) : bbox :=
  let tileSize := 256 in
  let resolution := 0.00028 * pow2 (parseInt z) in
  (parseInt x * tileSize * resolution,
   parseInt y * tileSize * resolution,
   (parseInt x + 1) * tileSize * resolution,
   (parseInt y + 1) * tileSize * resolution).

(** The entries of [[minX, minY, maxX, maxY]]. *)
Definition minX (b : bbox) : number := b.1.1.1.
Definition minY (b : bbox) : number := b.1.1.2.
Definition maxX (b : bbox) : number := b.1.2.
Definition maxY (b : bbox) : number := b.2.

(** [P lo && P (lo + 1) && ... && P (lo + n - 1)] *)
Fixpoint all_from (n : nat) (lo : Z) (P : Z -> bool) : bool :=
  match n with
  | O => true
  | S k => P lo && all_from k (lo + 1) P
  end.

(** [P z i] for each zoom [z] of [0 .. zooms - 1] and each index [i] of
    [0 .. 2^z - 1], the columns or the rows of the zoom. *)
Definition all_tiles (zooms : nat) (P : Z -> Z -> bool) : bool :=
  all_from zooms 0 (fun z => all_from (Z.to_nat (2 ^ z)) 0 (P z)).


(** The tests a zoom level is put to row by row or column by column, in
    terms of the resolution of the zoom. *)


Definition halves (z : Z) : bool :=
  getResolution (of_Z (z + 1)) =? getResolution (of_Z z) / 2.



Definition decreasing (z : Z) : bool :=
  (0 <? getResolution (of_Z (z + 1)))
  && (getResolution (of_Z (z + 1)) <? getResolution (of_Z z)).

Definition spans (z : Z) : bool :=
  tileSize * pow2 (of_Z z) * getResolution (of_Z z) =? 2 * webMercatorExtent.

Definition columns_inside (z : Z) : Z -> bool :=
  let resolution := getResolution (of_Z z) in
  fun c =>
    let west := of_Z c * tileSize * resolution - webMercatorExtent in
    let east := (of_Z c + 1) * tileSize * resolution - webMercatorExtent in
    (- webMercatorExtent <=? west) && (west <? east)
    && (east <=? webMercatorExtent).

Definition rows_inside (z : Z) : Z -> bool :=
  let resolution := getResolution (of_Z z) in
  fun r =>
    let north := webMercatorExtent - of_Z r * tileSize * resolution in
    let south := webMercatorExtent - (of_Z r + 1) * tileSize * resolution in
    (- webMercatorExtent <=? south) && (south <? north)
    && (north <=? webMercatorExtent).

Definition columns_split (z : Z) : Z -> bool :=
  let resolution := getResolution (of_Z z) in
  let finer := getResolution (of_Z (z + 1)) in
  fun c =>
    (of_Z (2 * c) * tileSize * finer - webMercatorExtent
     =? of_Z c * tileSize * resolution - webMercatorExtent)
    && ((of_Z (2 * c + 1) + 1) * tileSize * finer - webMercatorExtent
        =? (of_Z c + 1) * tileSize * resolution - webMercatorExtent)
    && ((of_Z (2 * c) + 1) * tileSize * finer - webMercatorExtent
        =? of_Z (2 * c + 1) * tileSize * finer - webMercatorExtent).

Definition rows_split (z : Z) : Z -> bool :=
  let resolution := getResolution (of_Z z) in
  let finer := getResolution (of_Z (z + 1)) in
  fun r =>
    (webMercatorExtent - of_Z (2 * r) * tileSize * finer
     =? webMercatorExtent - of_Z r * tileSize * resolution)
    && (webMercatorExtent - (of_Z (2 * r + 1) + 1) * tileSize * finer
        =? webMercatorExtent - (of_Z r + 1) * tileSize * resolution)
    && (webMercatorExtent - (of_Z (2 * r) + 1) * tileSize * finer
        =? webMercatorExtent - of_Z (2 * r + 1) * tileSize * finer).

Definition outer_edges (z : Z) : bool :=
  let resolution := getResolution (of_Z z) in
  (of_Z 0 * tileSize * resolution - webMercatorExtent =? - webMercatorExtent)
  && (webMercatorExtent - of_Z 0 * tileSize * resolution =? webMercatorExtent)
  && ((of_Z (2 ^ z - 1) + 1) * tileSize * resolution - webMercatorExtent
      =? webMercatorExtent)
  && (webMercatorExtent - (of_Z (2 ^ z - 1) + 1) * tileSize * resolution
      =? - webMercatorExtent).

(** The same for the box of the earlier version: the second and fourth
    entries grow with the row, and the sides double at the next zoom. *)
Definition variant_rows (z : Z) : Z -> bool :=
  let resolution := 0.00028 * pow2 (of_Z z) in
  let finer := 0.00028 * pow2 (of_Z (z + 1)) in
  fun r =>
    (of_Z r * 256 * resolution <? of_Z (r + 1) * 256 * resolution)
    && ((of_Z r + 1) * 256 * resolution
        <? (of_Z (r + 1) + 1) * 256 * resolution)
    && ((of_Z r + 1) * 256 * finer - of_Z r * 256 * finer
        =? 2 * ((of_Z r + 1) * 256 * resolution - of_Z r * 256 * resolution)).

End Binary64.

(** ** Arithmetic on finite numbers *)

Section FiniteArithmetic.

Lemma Qsgn_eq_0 (q : Q) : (Qsgn q =? 0)%Z = true <-> (q == 0)%Q.
Proof.
  unfold Qsgn, Qeq. simpl. rewrite Z.eqb_eq, Z.sgn_null_iff. lia.
Qed.

Lemma div_Fin (p q : Q) :
  ~ (q == 0)%Q -> (Fin p / Fin q)%num = Fin (Qred (p / q)).
Proof.
  intros Hq. unfold div.
  destruct (Qsgn q =? 0)%Z eqn:E; [|reflexivity].
  apply Qsgn_eq_0 in E. contradiction.
Qed.

Lemma Fin_Qred_eq (p q : Q) : (p == q)%Q -> Fin (Qred p) = Fin (Qred q).
Proof. intros H. f_equal. apply Qred_complete, H. Qed.

Lemma Qred_inject_Z (n : Z) : Qred (inject_Z n) = inject_Z n.
Proof.
  apply Qred_identity. simpl. apply Z.gcd_1_r.
Qed.

Lemma int_eq (q : Q) (n : Z) : (q == inject_Z n)%Q -> Fin (Qred q) = int n.
Proof.
  intros H. unfold int. rewrite <- (Qred_inject_Z n).
  apply Fin_Qred_eq, H.
Qed.

Lemma add_int (a b : Z) : (int a + int b)%num = int (a + b).
Proof.
  unfold int, add, Qplus'. apply int_eq. rewrite inject_Z_plus. reflexivity.
Qed.

Lemma integer_of_inject_Z (n : Z) : Math.integer_of (inject_Z n) = Some n.
Proof. unfold Math.integer_of. rewrite Qred_inject_Z. reflexivity. Qed.

Lemma pow2_int (z : Z) : Math.pow2 (int z) = Fin (Qred (2 ^ z)).
Proof. unfold Math.pow2, int. rewrite integer_of_inject_Z. reflexivity. Qed.

Lemma pow2_pos (z : Z) : (0 < 2 ^ z)%Q.
Proof. apply Qpower_0_lt. reflexivity. Qed.

End FiniteArithmetic.

(** ** Tile addressing *)

Section TileAddressing.

Import Handler.

Lemma tileSize_num_eq : tileSize_num = Fin Spec.tileSizePixels.
Proof. reflexivity. Qed.

Lemma webMercatorExtent_eq : webMercatorExtent = Fin Spec.planarHalfExtent.
Proof. reflexivity. Qed.

Lemma tile_span_nonzero (z : Z) :
  ~ (Qmult' Spec.tileSizePixels (Qred (2 ^ z)) == 0)%Q.
Proof.
  rewrite Qmult'_correct, Qred_correct.
  pose proof (pow2_pos z) as Hp. unfold Spec.tileSizePixels.
  intros H. nra.
Qed.

(** The resolution of the handler is the resolution of the contract. *)
Lemma getResolution_int (z : Z) :
  getResolution (int z) =
  Fin (Qred (Spec.resolution Spec.tileSizePixels Spec.planarHalfExtent z)).
Proof.
  unfold getResolution.
  rewrite pow2_int, tileSize_num_eq, webMercatorExtent_eq.
  cbn [mul int]. rewrite div_Fin by apply tile_span_nonzero.
  apply Fin_Qred_eq. unfold Spec.resolution.
  rewrite !Qmult'_correct, Qred_correct. reflexivity.
Qed.

(** The box of the handler is the box of the contract. *)
Lemma tileToWebMercator_int (z c r : Z) :
  tileToWebMercator (int c) (int r) (int z) =
  of_BBox (Spec.tileToBBox z c r Spec.tileSizePixels Spec.planarHalfExtent).
Proof.
  unfold tileToWebMercator.
  rewrite getResolution_int, !add_int, tileSize_num_eq, webMercatorExtent_eq.
  set (res := Spec.resolution _ _ z).
  unfold of_BBox, Spec.tileToBBox. fold res. cbn [mul sub int Spec.minX Spec.minY Spec.maxX Spec.maxY].
  repeat f_equal; apply Qred_complete;
    unfold Qminus'; rewrite ?Qred_correct, !Qmult'_correct, ?Qred_correct;
    reflexivity.
Qed.

End TileAddressing.

(** ** The window resolver *)

Section WindowResolver.

Import Handler.

Lemma round_offset (a b res : Q) :
  ~ (res == 0)%Q ->
  Math.round ((Fin a - Fin b) / Fin res) = int (pixel_index (a - b) res).
Proof.
  intros Hres. cbn [sub]. rewrite div_Fin by exact Hres.
  unfold Math.round, pixel_index. f_equal. apply Qfloor_comp.
  rewrite Qred_correct. unfold Qminus'. rewrite Qred_correct. reflexivity.
Qed.

Lemma clamp_Fin (p limit : Q) :
  Math.max (int 0) (Math.min (Fin p) (Fin limit)) = Fin (Qclamp p limit).
Proof.
  unfold Math.min, Math.max, Qclamp, int.
  destruct (Qle_bool p limit);
    change (inject_Z 0) with 0%Q;
    [destruct (Qle_bool 0 p) | destruct (Qle_bool 0 limit)]; reflexivity.
Qed.

Lemma Qclamp_bounds (p limit : Q) :
  (0 <= limit)%Q -> (0 <= Qclamp p limit <= limit)%Q.
Proof.
  intros Hl. unfold Qclamp.
  destruct (Qle_bool p limit) eqn:E1.
  - apply Qle_bool_iff in E1.
    destruct (Qle_bool 0 p) eqn:E2.
    + apply Qle_bool_iff in E2. split; assumption.
    + split; [apply Qle_refl | exact Hl].
  - destruct (Qle_bool 0 limit) eqn:E2.
    + split; [exact Hl | apply Qle_refl].
    + split; [apply Qle_refl | exact Hl].
Qed.

Lemma Qle_bool_false (x y : Q) : Qle_bool x y = false -> (y < x)%Q.
Proof.
  intros H. apply Qnot_le_lt. intros Hle.
  apply Qle_bool_iff in Hle. congruence.
Qed.

Lemma Qclamp_mono (p q limit : Q) :
  (p <= q)%Q -> (Qclamp p limit <= Qclamp q limit)%Q.
Proof.
  intros Hpq. unfold Qclamp.
  destruct (Qle_bool p limit) eqn:E1; destruct (Qle_bool q limit) eqn:E2;
    [apply Qle_bool_iff in E1; apply Qle_bool_iff in E2
    |apply Qle_bool_iff in E1; apply Qle_bool_false in E2
    |apply Qle_bool_false in E1; apply Qle_bool_iff in E2
    |apply Qle_bool_false in E1; apply Qle_bool_false in E2];
    repeat match goal with
           | |- context [Qle_bool ?a ?b] =>
               let E := fresh "E" in
               destruct (Qle_bool a b) eqn:E;
               [apply Qle_bool_iff in E | apply Qle_bool_false in E]
           end; lra.
Qed.

Lemma pixel_index_mono (a b res : Q) :
  (0 < res)%Q -> (a <= b)%Q -> (pixel_index a res <= pixel_index b res)%Z.
Proof.
  intros Hres Hab. unfold pixel_index. apply Qfloor_resp_le.
  apply Qplus_le_l. apply Qmult_le_r; [apply Qinv_lt_0_compat, Hres | exact Hab].
Qed.

(** The window of a box of finite coordinates, for a raster with a finite
    origin and a finite, nonzero resolution. *)
Lemma webMercatorToPixel_Fin (image : GeoTIFF.Image)
    (minX minY maxX maxY w h ox oy res : Q) :
  GeoTIFF.getWidth image = Fin w ->
  GeoTIFF.getHeight image = Fin h ->
  GeoTIFF.getOrigin image = (Fin ox, Fin oy) ->
  imageResolution image = Fin res ->
  ~ (res == 0)%Q ->
  webMercatorToPixel (Fin minX, Fin minY, Fin maxX, Fin maxY) image =
  (Fin (Qclamp (inject_Z (pixel_index (minX - ox) res)) w),
   Fin (Qclamp (inject_Z (pixel_index (oy - maxY) res)) h),
   Fin (Qclamp (inject_Z (pixel_index (maxX - ox) res)) w),
   Fin (Qclamp (inject_Z (pixel_index (oy - minY) res)) h)).
Proof.
  intros Hw Hh Ho Hr Hres. unfold webMercatorToPixel.
  rewrite Hw, Hh, Ho, Hr.
  rewrite !round_offset by exact Hres.
  unfold int at 2 4 6 8. rewrite !clamp_Fin. reflexivity.
Qed.

Lemma Qle_bool_inject_Z (a b : Z) :
  Qle_bool (inject_Z a) (inject_Z b) = (a <=? b)%Z.
Proof. unfold Qle_bool, inject_Z. simpl. rewrite !Z.mul_1_r. reflexivity. Qed.

Lemma Qclamp_low (k W : Z) :
  (k <= 0)%Z -> (0 <= W)%Z -> Qclamp (inject_Z k) (inject_Z W) = 0%Q.
Proof.
  intros Hk HW. unfold Qclamp. change 0%Q with (inject_Z 0).
  rewrite Qle_bool_inject_Z.
  replace (k <=? W)%Z with true by (symmetry; apply Z.leb_le; lia).
  rewrite Qle_bool_inject_Z.
  destruct (0 <=? k)%Z eqn:E; [|reflexivity].
  apply Z.leb_le in E. f_equal. lia.
Qed.

Lemma Qclamp_high (k W : Z) :
  (W <= k)%Z -> (0 <= W)%Z -> Qclamp (inject_Z k) (inject_Z W) = inject_Z W.
Proof.
  intros Hk HW. unfold Qclamp. change 0%Q with (inject_Z 0).
  rewrite Qle_bool_inject_Z.
  destruct (k <=? W)%Z eqn:E.
  - apply Z.leb_le in E. assert (k = W) by lia. subst k.
    rewrite Qle_bool_inject_Z.
    replace (0 <=? W)%Z with true by (symmetry; apply Z.leb_le; lia).
    reflexivity.
  - rewrite Qle_bool_inject_Z.
    replace (0 <=? W)%Z with true by (symmetry; apply Z.leb_le; lia).
    reflexivity.
Qed.

Lemma pixel_index_nonpos (a res : Q) :
  (0 < res)%Q -> (a <= 0)%Q -> (pixel_index a res <= 0)%Z.
Proof.
  intros Hres Ha. unfold pixel_index.
  assert (H : (a / res + (1 # 2) <= 1 # 2)%Q).
  { assert (a / res <= 0)%Q; [|lra].
    apply Qle_shift_div_r; [exact Hres | lra]. }
  apply Qfloor_resp_le in H. exact H.
Qed.

Lemma pixel_index_ge (a res : Q) (W : Z) :
  (0 < res)%Q -> (inject_Z W * res <= a)%Q -> (W <= pixel_index a res)%Z.
Proof.
  intros Hres Ha. unfold pixel_index.
  assert (H : (inject_Z W <= a / res + (1 # 2))%Q).
  { assert (inject_Z W <= a / res)%Q; [|lra].
    apply Qle_shift_div_l; [exact Hres | exact Ha]. }
  apply Qfloor_resp_le in H. rewrite Qfloor_Z in H. exact H.
Qed.

(** C10.  For every box with [minX <= maxX] and [minY <= maxY] and every
    raster with a positive resolution, the window of [webMercatorToPixel]
    is within the raster and ordered:
    [0 <= left <= right <= rasterWidth] and
    [0 <= top <= bottom <= rasterHeight]. *)
Theorem webMercatorToPixel_window_bounds (image : GeoTIFF.Image)
    (minX minY maxX maxY w h ox oy res : Q) :
  GeoTIFF.getWidth image = Fin w ->
  GeoTIFF.getHeight image = Fin h ->
  GeoTIFF.getOrigin image = (Fin ox, Fin oy) ->
  imageResolution image = Fin res ->
  (0 < res)%Q -> (0 <= w)%Q -> (0 <= h)%Q ->
  (minX <= maxX)%Q -> (minY <= maxY)%Q ->
  exists left top right bottom : Q,
    webMercatorToPixel (Fin minX, Fin minY, Fin maxX, Fin maxY) image =
      (Fin left, Fin top, Fin right, Fin bottom)
    /\ (0 <= left)%Q /\ (left <= right)%Q /\ (right <= w)%Q
    /\ (0 <= top)%Q /\ (top <= bottom)%Q /\ (bottom <= h)%Q.
Proof.
  intros Hw Hh Ho Hr Hres Hw0 Hh0 HX HY.
  assert (Hnz : ~ (res == 0)%Q) by lra.
  rewrite (webMercatorToPixel_Fin image minX minY maxX maxY w h ox oy res)
    by assumption.
  do 4 eexists. split; [reflexivity|].
  pose proof (pixel_index_mono (minX - ox) (maxX - ox) res Hres) as HmX.
  pose proof (pixel_index_mono (oy - maxY) (oy - minY) res Hres) as HmY.
  repeat split;
    try (apply Qclamp_bounds; assumption);
    apply Qclamp_mono; rewrite <- Zle_Qle;
    [apply HmX | apply HmY]; lra.
Qed.

Lemma webMercatorToPixel_window_bounds_witness :
  exists left top right bottom : Q,
    webMercatorToPixel Sample.bbox_inside Sample.image =
      (Fin left, Fin top, Fin right, Fin bottom)
    /\ (0 <= left)%Q /\ (left <= right)%Q /\ (right <= 512)%Q
    /\ (0 <= top)%Q /\ (top <= bottom)%Q /\ (bottom <= 256)%Q.
Proof.
  apply (webMercatorToPixel_window_bounds Sample.image
           200 600 300 700 512 256 100 1000 2);
    solve [reflexivity | lra].
Defined.

(** C5, as stated, fails: for the sample box to the left of the sample
    raster the resolver returns the window [(0, 0, 0, 256)], of width
    zero, as an ordinary result; nothing is signalled. *)
Lemma webMercatorToPixel_returns_empty_window :
  let window := webMercatorToPixel Sample.bbox_outside Sample.image in
  window = (int 0, int 0, int 0, int 256)
  /\ (bbox_maxX window - bbox_minX window)%num = int 0.
Proof. split; reflexivity. Qed.

(** C5, amended.  [webMercatorToPixel] has no empty-window condition: for
    every ordered box that lies entirely to the left of, to the right of,
    above or below the extent of a raster of positive resolution, it
    returns the clamped window as an ordinary array of four finite
    numbers, with [left = right] or [top = bottom]. *)
Theorem webMercatorToPixel_outside_zero_area (image : GeoTIFF.Image)
    (W H : Z) (minX minY maxX maxY ox oy res : Q) :
  GeoTIFF.getWidth image = int W ->
  GeoTIFF.getHeight image = int H ->
  GeoTIFF.getOrigin image = (Fin ox, Fin oy) ->
  imageResolution image = Fin res ->
  (0 < res)%Q -> (0 <= W)%Z -> (0 <= H)%Z ->
  (minX <= maxX)%Q -> (minY <= maxY)%Q ->
  (maxX <= ox \/ ox + inject_Z W * res <= minX \/
   oy <= minY \/ maxY <= oy - inject_Z H * res)%Q ->
  exists left top right bottom : Q,
    webMercatorToPixel (Fin minX, Fin minY, Fin maxX, Fin maxY) image =
      (Fin left, Fin top, Fin right, Fin bottom)
    /\ (left = right \/ top = bottom).
Proof.
  intros Hw Hh Ho Hr Hres HW HH HX HY Hout.
  assert (Hnz : ~ (res == 0)%Q) by lra.
  rewrite (webMercatorToPixel_Fin image minX minY maxX maxY
             (inject_Z W) (inject_Z H) ox oy res) by assumption.
  do 4 eexists. split; [reflexivity|].
  pose proof (pixel_index_mono (minX - ox) (maxX - ox) res Hres) as HmX.
  pose proof (pixel_index_mono (oy - maxY) (oy - minY) res Hres) as HmY.
  assert (HmX' := HmX ltac:(lra)). assert (HmY' := HmY ltac:(lra)).
  destruct Hout as [Hl | [Hr' | [Hu | Hd]]].
  - left.
    pose proof (pixel_index_nonpos (maxX - ox) res Hres ltac:(lra)).
    rewrite !Qclamp_low by lia. reflexivity.
  - left.
    pose proof (pixel_index_ge (minX - ox) res W Hres ltac:(lra)).
    rewrite !Qclamp_high by lia. reflexivity.
  - right.
    pose proof (pixel_index_nonpos (oy - minY) res Hres ltac:(lra)).
    rewrite !Qclamp_low by lia. reflexivity.
  - right.
    pose proof (pixel_index_ge (oy - maxY) res H Hres ltac:(lra)).
    rewrite !Qclamp_high by lia. reflexivity.
Qed.

Lemma webMercatorToPixel_outside_zero_area_witness :
  exists left top right bottom : Q,
    webMercatorToPixel Sample.bbox_outside Sample.image =
      (Fin left, Fin top, Fin right, Fin bottom)
    /\ (left = right \/ top = bottom).
Proof.
  apply (webMercatorToPixel_outside_zero_area Sample.image 512 256
           (-100) 488 0 1000 100 1000 2);
    solve [reflexivity | lia | lra].
Defined.

End WindowResolver.

(** ** The band compositor *)

Section BandCompositor.

Variable alpha : Z.
Variable r : rasters.

Lemma for_loop_throw {St : Type} (body : nat -> St -> outcome St)
    (n start : nat) (s : St) (e : exn) :
  body start s = Throw e -> for_loop body (S n) start s = Throw e.
Proof. intros H. simpl. rewrite H. reflexivity. Qed.

Section ThreeBands.

Variables band0 band1 band2 : list Z.
Hypothesis Hband0 : r !! 0%nat = Some band0.
Hypothesis Hband1 : r !! 1%nat = Some band1.
Hypothesis Hband2 : r !! 2%nat = Some band2.

Lemma interleave_pixel_three (i : nat) (buf : list Z) :
  interleave_pixel alpha r i buf =
  Return (<[(i * 4 + 3)%nat := alpha]>
            (<[(i * 4 + 2)%nat := sample band2 i]>
               (<[(i * 4 + 1)%nat := sample band1 i]>
                  (<[(i * 4)%nat := sample band0 i]> buf)))).
Proof.
  unfold interleave_pixel, band_sample.
  rewrite Hband0, Hband1, Hband2. reflexivity.
Qed.

(** The loop over the pixels [start .. start + n - 1] of a buffer that
    is long enough: it returns, keeps the length and the bytes of the
    earlier pixels, and leaves each of its pixels as (R, G, B, alpha). *)
Lemma for_loop_interleave (n : nat) :
  forall (start : nat) (buf : list Z),
    ((start + n) * 4 <= length buf)%nat ->
    exists buf' : list Z,
      for_loop (interleave_pixel alpha r) n start buf = Return buf'
      /\ length buf' = length buf
      /\ (forall j : nat, (j < start * 4)%nat -> buf' !! j = buf !! j)
      /\ (forall i : nat, (start <= i < start + n)%nat ->
            buf' !! (i * 4)%nat = Some (sample band0 i)
            /\ buf' !! (i * 4 + 1)%nat = Some (sample band1 i)
            /\ buf' !! (i * 4 + 2)%nat = Some (sample band2 i)
            /\ buf' !! (i * 4 + 3)%nat = Some alpha).
Proof.
  induction n as [|n IH]; intros start buf Hlen.
  - exists buf. simpl. repeat split; try reflexivity; lia.
  - simpl. rewrite interleave_pixel_three. simpl.
    set (buf1 := <[(start * 4 + 3)%nat := alpha]> _).
    assert (Hlen1 : length buf1 = length buf).
    { unfold buf1. rewrite !length_insert. reflexivity. }
    destruct (IH (S start) buf1) as (buf' & Hrun & Hl & Hkeep & Hset).
    { rewrite Hlen1. lia. }
    exists buf'. split; [exact Hrun|]. split; [congruence|]. split.
    + intros j Hj. rewrite Hkeep by lia. unfold buf1.
      rewrite !list_lookup_insert_ne by lia. reflexivity.
    + intros i Hi. destruct (decide (i = start)) as [->|Hne].
      * rewrite !Hkeep by lia. unfold buf1.
        repeat split.
        -- rewrite !(list_lookup_insert_ne _ _ (start * 4)) by lia.
           apply list_lookup_insert_eq. lia.
        -- rewrite !(list_lookup_insert_ne _ _ (start * 4 + 1)) by lia.
           apply list_lookup_insert_eq. rewrite !length_insert. lia.
        -- rewrite !(list_lookup_insert_ne _ _ (start * 4 + 2)) by lia.
           apply list_lookup_insert_eq. rewrite !length_insert. lia.
        -- apply list_lookup_insert_eq. rewrite !length_insert. lia.
      * apply Hset. lia.
Qed.

Lemma interleave_three (width height : nat) :
  exists rgba : list Z,
    interleave alpha r width height = Return rgba
    /\ length rgba = (width * height * 4)%nat
    /\ (forall i : nat, (i < width * height)%nat ->
          rgba !! (i * 4)%nat = Some (sample band0 i)
          /\ rgba !! (i * 4 + 1)%nat = Some (sample band1 i)
          /\ rgba !! (i * 4 + 2)%nat = Some (sample band2 i)
          /\ rgba !! (i * 4 + 3)%nat = Some alpha).
Proof.
  unfold interleave.
  destruct (for_loop_interleave (width * height) 0
              (replicate (width * height * 4) 0%Z))
    as (rgba & Hrun & Hl & _ & Hset).
  { rewrite length_replicate. lia. }
  exists rgba. split; [exact Hrun|]. split.
  - rewrite Hl. apply length_replicate.
  - intros i Hi. apply Hset. lia.
Qed.

End ThreeBands.

(** With a band missing among the first three, the first pixel throws. *)
Lemma interleave_missing_band (width height : nat) :
  (length r < 3)%nat -> (0 < width * height)%nat ->
  interleave alpha r width height =
  Throw (TypeError "Cannot read properties of undefined").
Proof.
  intros Hr Hn. unfold interleave.
  destruct (width * height)%nat as [|n] eqn:E; [lia|].
  apply for_loop_throw. unfold interleave_pixel, band_sample.
  destruct r as [|b0 [|b1 [|b2 r']]]; simpl in *; try reflexivity; lia.
Qed.

End BandCompositor.

Section CompositorClaims.

Lemma three_bands_inv (r : rasters) :
  length r = 3%nat ->
  exists band0 band1 band2 : list Z,
    r !! 0%nat = Some band0 /\ r !! 1%nat = Some band1
    /\ r !! 2%nat = Some band2.
Proof.
  intros Hr. destruct r as [|b0 [|b1 [|b2 [|b3 r']]]]; try discriminate.
  exists b0, b1, b2. repeat split.
Qed.

(** C3.  For every 3-band input whose bands have at least
    [width * height] samples, the buffer [convertRastersToPng] builds and
    hands to the encoder has exactly [width * height * 4] bytes, and for
    every pixel [i < width * height] its byte [i*4+3] is the alpha
    constant of the file: 0 in [handler.ts], 255 in the earlier version. *)
Theorem convertRastersToPng_buffer (env : Collaborators) (r : rasters)
    (width height : nat) :
  length r = 3%nat ->
  Forall (fun band : list Z => (width * height <= length band)%nat) r ->
  (exists rgba : list Z,
      Handler.rgbaBuffer r width height = Return rgba
      /\ Handler.convertRastersToPng env r width height
         = sharp_png env rgba width height 4%nat
      /\ length rgba = (width * height * 4)%nat
      /\ forall i : nat, (i < width * height)%nat ->
           rgba !! (i * 4 + 3)%nat = Some 0%Z)
  /\ (exists rgba : list Z,
      Variant.rgbaBuffer r width height = Return rgba
      /\ Variant.convertRastersToPng env r width height
         = sharp_png env rgba width height 4%nat
      /\ length rgba = (width * height * 4)%nat
      /\ forall i : nat, (i < width * height)%nat ->
           rgba !! (i * 4 + 3)%nat = Some 255%Z).
Proof.
  intros Hr _.
  destruct (three_bands_inv r Hr) as (b0 & b1 & b2 & H0 & H1 & H2).
  split.
  - destruct (interleave_three 0 r b0 b1 b2 H0 H1 H2 width height)
      as (rgba & Hrun & Hl & Hset).
    exists rgba. unfold Handler.convertRastersToPng, Handler.rgbaBuffer.
    rewrite Hrun. repeat split; [exact Hl|].
    intros i Hi. apply (Hset i Hi).
  - destruct (interleave_three 255 r b0 b1 b2 H0 H1 H2 width height)
      as (rgba & Hrun & Hl & Hset).
    exists rgba. unfold Variant.convertRastersToPng, Variant.rgbaBuffer.
    rewrite Hrun. repeat split; [exact Hl|].
    intros i Hi. apply (Hset i Hi).
Qed.

Lemma convertRastersToPng_buffer_witness :
  (exists rgba : list Z,
      Handler.rgbaBuffer Sample.three_bands 1 1 = Return rgba
      /\ Handler.convertRastersToPng Sample.env Sample.three_bands 1 1
         = sharp_png Sample.env rgba 1%nat 1%nat 4%nat
      /\ length rgba = (1 * 1 * 4)%nat
      /\ forall i : nat, (i < 1 * 1)%nat ->
           rgba !! (i * 4 + 3)%nat = Some 0%Z)
  /\ (exists rgba : list Z,
      Variant.rgbaBuffer Sample.three_bands 1 1 = Return rgba
      /\ Variant.convertRastersToPng Sample.env Sample.three_bands 1 1
         = sharp_png Sample.env rgba 1%nat 1%nat 4%nat
      /\ length rgba = (1 * 1 * 4)%nat
      /\ forall i : nat, (i < 1 * 1)%nat ->
           rgba !! (i * 4 + 3)%nat = Some 255%Z).
Proof.
  apply (convertRastersToPng_buffer Sample.env Sample.three_bands 1 1).
  - reflexivity.
  - repeat constructor.
Defined.

(** C6, as stated, fails: with two bands and no pixel the loop body never
    runs, so the compositor does not fail: it builds the (empty) packed
    buffer and calls the encoder on it; and with one pixel the failure is
    the [TypeError] of reading an element of [undefined], not an error
    that names the missing band. *)
Lemma convertRastersToPng_two_bands :
  Handler.rgbaBuffer Sample.two_bands 0 0 = Return []
  /\ Handler.convertRastersToPng Sample.env Sample.two_bands 0 0
     = sharp_png Sample.env [] 0%nat 0%nat 4%nat
  /\ Handler.convertRastersToPng Sample.env Sample.two_bands 1 1
     = Throw (TypeError "Cannot read properties of undefined").
Proof. repeat split. Qed.

(** C6, amended.  For every band set with fewer than 3 bands and every
    size with at least one pixel, [convertRastersToPng] throws the
    [TypeError] of reading an element of a missing band, whatever the
    encoder would do: no packed buffer is produced. *)
Theorem convertRastersToPng_insufficient_bands (env : Collaborators)
    (r : rasters) (width height : nat) :
  (length r < 3)%nat -> (0 < width * height)%nat ->
  Handler.convertRastersToPng env r width height
    = Throw (TypeError "Cannot read properties of undefined")
  /\ Variant.convertRastersToPng env r width height
    = Throw (TypeError "Cannot read properties of undefined").
Proof.
  intros Hr Hn.
  unfold Handler.convertRastersToPng, Handler.rgbaBuffer,
    Variant.convertRastersToPng, Variant.rgbaBuffer.
  rewrite !interleave_missing_band by assumption. split; reflexivity.
Qed.

Lemma convertRastersToPng_insufficient_bands_witness :
  Handler.convertRastersToPng Sample.env Sample.two_bands 2 2
    = Throw (TypeError "Cannot read properties of undefined")
  /\ Variant.convertRastersToPng Sample.env Sample.two_bands 2 2
    = Throw (TypeError "Cannot read properties of undefined").
Proof.
  apply (convertRastersToPng_insufficient_bands
           Sample.env Sample.two_bands 2 2); simpl; lia.
Defined.

End CompositorClaims.

(** ** The handler *)

Section HandlerClaims.

Lemma mul_NaN_r (a : num) : (a * NaN)%num = NaN.
Proof. destruct a; reflexivity. Qed.

Lemma div_NaN_r (a : num) : (a / NaN)%num = NaN.
Proof. destruct a; reflexivity. Qed.

Lemma sub_NaN_r (a : num) : (a - NaN)%num = NaN.
Proof. destruct a; reflexivity. Qed.

Lemma getResolution_NaN : Handler.getResolution NaN = NaN.
Proof.
  unfold Handler.getResolution. cbn [Math.pow2].
  rewrite mul_NaN_r. apply div_NaN_r.
Qed.

(** A coordinate that is [NaN] leaves a [NaN] in the box. *)
Lemma tileToWebMercator_NaN (x y z : num) :
  x = NaN \/ y = NaN \/ z = NaN ->
  has_NaN (Handler.tileToWebMercator x y z) = true.
Proof.
  unfold Handler.tileToWebMercator, has_NaN, bbox_minX, bbox_minY,
    bbox_maxX, bbox_maxY. cbn [fst snd].
  intros [-> | [-> | ->]].
  - reflexivity.
  - cbn [mul]. rewrite sub_NaN_r. cbn [is_NaN].
    apply orb_true_iff. left. apply orb_true_iff. left. apply orb_true_r.
  - rewrite getResolution_NaN, !mul_NaN_r. reflexivity.
Qed.

Lemma tile_bbox_NaN (x y z : string) :
  parseInt x = NaN \/ parseInt y = NaN \/ parseInt z = NaN ->
  has_NaN (Variant.tile_bbox x y z) = true.
Proof.
  unfold Variant.tile_bbox, has_NaN, bbox_minX, bbox_minY,
    bbox_maxX, bbox_maxY. cbn [fst snd].
  intros [-> | [-> | ->]].
  - reflexivity.
  - cbn [mul is_NaN].
    apply orb_true_iff. left. apply orb_true_iff. left. apply orb_true_r.
  - cbn [Math.pow2]. rewrite !mul_NaN_r. reflexivity.
Qed.

Lemma try_catch_fetch (env : Collaborators) (fetched : outcome TiffData) :
  let response :=
    try_catch (let* data := fetched in Return (ok_response env data)) in
  (statusCode response = 200%Z \/ statusCode response = 500%Z)
  /\ ~ client_failure response.
Proof.
  destruct fetched as [data|e]; unfold client_failure; simpl;
    (split; [auto | lia]).
Qed.


(** C4, as stated, fails: for the request [/abc/1/2] and a decoder that
    finds no data, the response has status 500 and carries the decoder's
    error; it is not a failure of the client. *)
Lemma tile_bad_zoom_is_server_error :
  malformed_address Sample.event_bad_zoom
  /\ statusCode (Handler.tile Sample.env Sample.event_bad_zoom) = 500%Z
  /\ body (Handler.tile Sample.env Sample.event_bad_zoom)
     = ErrorBody "An error occurred Error: no data in window"
  /\ ~ client_failure (Handler.tile Sample.env Sample.event_bad_zoom).
Proof.
  split.
  - eexists. split; [reflexivity|]. left. vm_compute. reflexivity.
  - split; [vm_compute; reflexivity|].
    split; [vm_compute; reflexivity|].
    unfold client_failure.
    replace (statusCode (Handler.tile Sample.env Sample.event_bad_zoom))
      with 500%Z by (vm_compute; reflexivity).
    lia.
Qed.

(** C4, amended.  The handler does not validate the address: for every
    request with a path parameter that has no leading integer, the box
    passed to [fetchTiffData] has a [NaN] entry, the response is the one
    the rest of the pipeline makes of that box, and its status is 200 or
    500, never a client-side failure; no exception leaves [tile].  The
    same holds of the earlier version. *)
Theorem tile_malformed_address (env : Collaborators)
    (event : APIGatewayProxyEvent) :
  malformed_address event ->
  (exists bbox : tuple4,
      has_NaN bbox = true
      /\ Handler.tile env event =
         try_catch (let* data := Handler.fetchTiffData env bbox
                                   Handler.tileSize in
                    Return (ok_response env data))
      /\ (statusCode (Handler.tile env event) = 200%Z
          \/ statusCode (Handler.tile env event) = 500%Z)
      /\ ~ client_failure (Handler.tile env event))
  /\ (exists bbox : tuple4,
      has_NaN bbox = true
      /\ Variant.tile env event =
         try_catch (let* data := Variant.fetchTiffData env bbox 256%nat in
                    Return (ok_response env data))
      /\ (statusCode (Variant.tile env event) = 200%Z
          \/ statusCode (Variant.tile env event) = 500%Z)
      /\ ~ client_failure (Variant.tile env event)).
Proof.
  intros (p & Hp & Hbad).
  unfold Handler.tile, Handler.tile_try, Variant.tile, Variant.tile_try,
    destructure.
  rewrite Hp. cbn [bind].
  set (z := default "undefined" (p !! "z")) in *.
  set (x := default "undefined" (p !! "x")) in *.
  set (y := default "undefined" (p !! "y")) in *.
  split.
  - exists (Handler.tileToWebMercator (parseInt x) (parseInt y) (parseInt z)).
    split; [apply tileToWebMercator_NaN; tauto|].
    split; [reflexivity|]. apply try_catch_fetch.
  - exists (Variant.tile_bbox x y z).
    split; [apply tile_bbox_NaN; tauto|].
    split; [reflexivity|]. apply try_catch_fetch.
Qed.

Lemma tile_malformed_address_witness :
  (exists bbox : tuple4,
      has_NaN bbox = true
      /\ Handler.tile Sample.env Sample.event_bad_zoom =
         try_catch (let* data := Handler.fetchTiffData Sample.env bbox
                                   Handler.tileSize in
                    Return (ok_response Sample.env data))
      /\ (statusCode (Handler.tile Sample.env Sample.event_bad_zoom) = 200%Z
          \/ statusCode (Handler.tile Sample.env Sample.event_bad_zoom) = 500%Z)
      /\ ~ client_failure (Handler.tile Sample.env Sample.event_bad_zoom))
  /\ (exists bbox : tuple4,
      has_NaN bbox = true
      /\ Variant.tile Sample.env Sample.event_bad_zoom =
         try_catch (let* data := Variant.fetchTiffData Sample.env bbox 256%nat in
                    Return (ok_response Sample.env data))
      /\ (statusCode (Variant.tile Sample.env Sample.event_bad_zoom) = 200%Z
          \/ statusCode (Variant.tile Sample.env Sample.event_bad_zoom) = 500%Z)
      /\ ~ client_failure (Variant.tile Sample.env Sample.event_bad_zoom)).
Proof.
  apply (tile_malformed_address Sample.env Sample.event_bad_zoom).
  eexists. split; [reflexivity|]. left. vm_compute. reflexivity.
Defined.

End HandlerClaims.

(** ** The span of a zoom level, in exact arithmetic *)

Section TileGrid.

Import Handler.

Lemma span_eq (z : Z) :
  (0 <= z)%Z ->
  (inject_Z (2 ^ z) * Spec.tileSizePixels
   * Spec.resolution Spec.tileSizePixels Spec.planarHalfExtent z
   == 2 * Spec.planarHalfExtent)%Q.
Proof.
  intros Hz. rewrite Zpower_Qpower by exact Hz.
  change (inject_Z 2) with 2%Q. unfold Spec.resolution.
  pose proof (pow2_pos z) as Hp. unfold Spec.tileSizePixels. field.
  intros H. nra.
Qed.

End TileGrid.

(** ** Rounding and clamping of the window *)

Section WindowRounding.

Import Handler.

Lemma pixel_index_nearest (a res : Q) (k : Z) :
  (0 < res)%Q ->
  ((inject_Z k - (1 # 2)) * res <= a)%Q ->
  (a < (inject_Z k + (1 # 2)) * res)%Q ->
  pixel_index a res = k.
Proof.
  intros Hres Hlo Hhi. unfold pixel_index.
  set (x := (a / res + (1 # 2))%Q).
  assert (Hx1 : (inject_Z k <= x)%Q).
  { assert (inject_Z k - (1 # 2) <= a / res)%Q; [|unfold x; lra].
    apply Qle_shift_div_l; assumption. }
  assert (Hx2 : (x < inject_Z k + 1)%Q).
  { assert (a / res < inject_Z k + (1 # 2))%Q; [|unfold x; lra].
    apply Qlt_shift_div_r; assumption. }
  pose proof (Qfloor_le x) as Hf1. pose proof (Qlt_floor x) as Hf2.
  rewrite inject_Z_plus in Hf2. change (inject_Z 1) with 1%Q in Hf2.
  assert (Qfloor x < k + 1)%Z.
  { rewrite Zlt_Qlt, inject_Z_plus. change (inject_Z 1) with 1%Q. lra. }
  assert (k < Qfloor x + 1)%Z.
  { rewrite Zlt_Qlt, inject_Z_plus. change (inject_Z 1) with 1%Q. lra. }
  lia.
Qed.

Lemma Qclamp_Z (k W : Z) :
  Qclamp (inject_Z k) (inject_Z W) = inject_Z (Z.max 0 (Z.min k W)).
Proof.
  unfold Qclamp. change 0%Q with (inject_Z 0).
  rewrite Qle_bool_inject_Z.
  destruct (k <=? W)%Z eqn:E1; rewrite Qle_bool_inject_Z;
    [destruct (0 <=? k)%Z eqn:E2 | destruct (0 <=? W)%Z eqn:E2];
    f_equal;
    repeat match goal with
           | H : (_ <=? _)%Z = true |- _ => apply Z.leb_le in H
           | H : (_ <=? _)%Z = false |- _ => apply Z.leb_gt in H
           end; lia.
Qed.

(** The clamp does not remove a [NaN]: a box with a [NaN] entry gives a
    window with a [NaN] entry, whatever the raster. *)
Theorem webMercatorToPixel_NaN (bbox : tuple4) (image : GeoTIFF.Image) :
  has_NaN bbox = true -> has_NaN (webMercatorToPixel bbox image) = true.
Proof.
  destruct bbox as [[[minX minY] maxX] maxY].
  unfold has_NaN, bbox_minX, bbox_minY, bbox_maxX, bbox_maxY,
    webMercatorToPixel.
  cbn [fst snd]. destruct (GeoTIFF.getOrigin image) as [ox oy].
  cbn [fst snd].
  intros H. repeat (apply orb_true_iff in H; destruct H as [H | H]).
  - destruct minX; try discriminate. reflexivity.
  - destruct minY; try discriminate. rewrite sub_NaN_r. cbn.
    apply orb_true_r.
  - destruct maxX; try discriminate. cbn.
    apply orb_true_iff. left. apply orb_true_r.
  - destruct maxY; try discriminate. rewrite sub_NaN_r. cbn.
    apply orb_true_iff. left. apply orb_true_iff. left. apply orb_true_r.
Qed.

Lemma webMercatorToPixel_NaN_witness :
  has_NaN (webMercatorToPixel (int 0, NaN, int 1, int 2) Sample.image) = true.
Proof.
  apply (webMercatorToPixel_NaN (int 0, NaN, int 1, int 2) Sample.image).
  reflexivity.
Defined.

(** The resolution assumed for a raster whose accessor has no
    [getResolution] is the one of a raster that spans the whole extent
    along X: with the origin at the top-left corner of the extent, the box
    of the tile of zoom 0 is mapped to the full width, and to as many rows
    as the raster has, up to its width. *)
Theorem webMercatorToPixel_fallback_resolution (image : GeoTIFF.Image)
    (W H : Z) :
  GeoTIFF.getResolution image = None ->
  GeoTIFF.getWidth image = int W ->
  GeoTIFF.getHeight image = int H ->
  GeoTIFF.getOrigin image
    = (Fin (- Spec.planarHalfExtent), Fin Spec.planarHalfExtent) ->
  (0 < W)%Z -> (0 <= H)%Z ->
  webMercatorToPixel (tileToWebMercator (int 0) (int 0) (int 0)) image
  = (int 0, int 0, int W, int (Z.min W H)).
Proof.
  intros Hnone Hw Hh Ho HW HH.
  assert (HWq : (0 < inject_Z W)%Q)
    by (change 0%Q with (inject_Z 0); rewrite <- Zlt_Qlt; exact HW).
  set (res := Qred (Qmult' Spec.planarHalfExtent (inject_Z 2) / inject_Z W)).
  assert (Hr : imageResolution image = Fin res).
  { unfold imageResolution. rewrite Hnone, Hw, webMercatorExtent_eq.
    cbn [mul int]. apply div_Fin. lra. }
  assert (Hres : (res * inject_Z W == 2 * Spec.planarHalfExtent)%Q).
  { unfold res. rewrite Qred_correct, Qmult'_correct.
    change (inject_Z 2) with 2%Q. field. lra. }
  assert (Hext : (0 < Spec.planarHalfExtent)%Q) by reflexivity.
  assert (Hpos : (0 < res)%Q) by nra.
  rewrite tileToWebMercator_int. unfold of_BBox, Spec.tileToBBox.
  cbn [Spec.minX Spec.minY Spec.maxX Spec.maxY].
  pose proof (span_eq 0 ltac:(lia)) as Hspan.
  change (inject_Z (2 ^ 0)) with 1%Q in Hspan.
  set (res0 := Spec.resolution _ _ 0) in *.
  rewrite (webMercatorToPixel_Fin image _ _ _ _
             (inject_Z W) (inject_Z H) (- Spec.planarHalfExtent)
             Spec.planarHalfExtent res) by (assumption || lra).
  change (inject_Z (0 + 1)) with 1%Q. change (inject_Z 0) with 0%Q.
  rewrite (pixel_index_nearest _ res 0), (pixel_index_nearest _ res 0),
    (pixel_index_nearest _ res W), (pixel_index_nearest _ res W);
    try exact Hpos;
    try (rewrite !Qred_correct; change (inject_Z 0) with 0%Q; nra).
  rewrite !Qclamp_Z. unfold int. repeat f_equal; lia.
Qed.

Lemma webMercatorToPixel_fallback_resolution_witness :
  webMercatorToPixel (tileToWebMercator (int 0) (int 0) (int 0))
    Fixture.world_image
  = (int 0, int 0, int 1024, int (Z.min 1024 512)).
Proof.
  apply (webMercatorToPixel_fallback_resolution Fixture.world_image 1024 512);
    solve [reflexivity | lia].
Defined.

End WindowRounding.

(** ** The contents of the packed buffer *)

Section PackedBuffer.

Lemma sample_in (band : list Z) (i : nat) (v : Z) :
  band !! i = Some v -> sample band i = (v mod 256)%Z.
Proof. intros H. unfold sample, toUint8. rewrite H. reflexivity. Qed.

Lemma sample_out (band : list Z) (i : nat) :
  (length band <= i)%nat -> sample band i = 0%Z.
Proof.
  intros H. unfold sample. rewrite (lookup_ge_None_2 band i H). reflexivity.
Qed.

(** Byte [i*4+k] of the buffer is sample [i] of band [k] for the three
    colour channels. *)
Lemma interleave_channel (alpha : Z) (r : rasters) (width height i k : nat)
    (band : list Z) :
  length r = 3%nat -> (i < width * height)%nat -> (k < 3)%nat ->
  r !! k = Some band ->
  exists rgba : list Z,
    interleave alpha r width height = Return rgba
    /\ rgba !! (i * 4 + k)%nat = Some (sample band i).
Proof.
  intros Hr Hi Hk Hband.
  destruct (three_bands_inv r Hr) as (b0 & b1 & b2 & H0 & H1 & H2).
  destruct (interleave_three alpha r b0 b1 b2 H0 H1 H2 width height)
    as (rgba & Hrun & _ & Hset).
  exists rgba. split; [exact Hrun|].
  destruct (Hset i Hi) as (E0 & E1 & E2 & _).
  destruct k as [|[|[|k]]]; [| | |lia].
  - rewrite Nat.add_0_r. congruence.
  - congruence.
  - congruence.
Qed.

(** In both versions, for a 3-band input, pixel [i] and channel
    [k < 3]: byte [i*4+k] of the packed buffer is sample [i] of band [k]
    reduced modulo 256, and 0 when the band has no sample [i]; a short band
    is no error. *)
Theorem rgbaBuffer_channel_bytes (r : rasters) (width height i k : nat)
    (band : list Z) :
  length r = 3%nat -> (i < width * height)%nat -> (k < 3)%nat ->
  r !! k = Some band ->
  (exists rgba : list Z,
      Handler.rgbaBuffer r width height = Return rgba
      /\ (forall v : Z, band !! i = Some v ->
            rgba !! (i * 4 + k)%nat = Some (v mod 256)%Z)
      /\ ((length band <= i)%nat -> rgba !! (i * 4 + k)%nat = Some 0%Z))
  /\ (exists rgba : list Z,
      Variant.rgbaBuffer r width height = Return rgba
      /\ (forall v : Z, band !! i = Some v ->
            rgba !! (i * 4 + k)%nat = Some (v mod 256)%Z)
      /\ ((length band <= i)%nat -> rgba !! (i * 4 + k)%nat = Some 0%Z)).
Proof.
  intros Hr Hi Hk Hband.
  unfold Handler.rgbaBuffer, Variant.rgbaBuffer.
  split.
  - destruct (interleave_channel 0 r width height i k band Hr Hi Hk Hband)
      as (rgba & Hrun & Hbyte).
    exists rgba. split; [exact Hrun|]. split.
    + intros v Hv. rewrite Hbyte, (sample_in band i v Hv). reflexivity.
    + intros Hshort. rewrite Hbyte, (sample_out band i Hshort). reflexivity.
  - destruct (interleave_channel 255 r width height i k band Hr Hi Hk Hband)
      as (rgba & Hrun & Hbyte).
    exists rgba. split; [exact Hrun|]. split.
    + intros v Hv. rewrite Hbyte, (sample_in band i v Hv). reflexivity.
    + intros Hshort. rewrite Hbyte, (sample_out band i Hshort). reflexivity.
Qed.

Lemma rgbaBuffer_channel_bytes_witness :
  (exists rgba : list Z,
      Handler.rgbaBuffer Fixture.wide_bands 2 1 = Return rgba
      /\ (forall v : Z, [20%Z; (-1)%Z] !! 1%nat = Some v ->
            rgba !! (1 * 4 + 1)%nat = Some (v mod 256)%Z)
      /\ ((length [20%Z; (-1)%Z] <= 1)%nat ->
          rgba !! (1 * 4 + 1)%nat = Some 0%Z))
  /\ (exists rgba : list Z,
      Variant.rgbaBuffer Fixture.wide_bands 2 1 = Return rgba
      /\ (forall v : Z, [20%Z; (-1)%Z] !! 1%nat = Some v ->
            rgba !! (1 * 4 + 1)%nat = Some (v mod 256)%Z)
      /\ ((length [20%Z; (-1)%Z] <= 1)%nat ->
          rgba !! (1 * 4 + 1)%nat = Some 0%Z)).
Proof.
  apply (rgbaBuffer_channel_bytes Fixture.wide_bands 2 1 1 1 [20%Z; (-1)%Z]);
    solve [reflexivity | simpl; lia].
Defined.

Lemma for_loop_ext {St : Type} (body1 body2 : nat -> St -> outcome St) :
  (forall (i : nat) (s : St), body1 i s = body2 i s) ->
  forall (n start : nat) (s : St),
    for_loop body1 n start s = for_loop body2 n start s.
Proof.
  intros Hext. induction n as [|n IH]; intros start s; simpl.
  - reflexivity.
  - rewrite Hext. destruct (body2 start s); simpl; [apply IH | reflexivity].
Qed.

Lemma band_sample_app (r extra : rasters) (k i : nat) :
  (k < length r)%nat -> band_sample (r ++ extra) k i = band_sample r k i.
Proof.
  intros Hk. unfold band_sample, rasters in *.
  rewrite lookup_app_l by exact Hk. reflexivity.
Qed.

(** Bands after the third are never read: with them or without them the
    encoder is called on the same buffer, in both versions. *)
Theorem convertRastersToPng_ignores_extra_bands (env : Collaborators)
    (r extra : rasters) (width height : nat) :
  (3 <= length r)%nat ->
  Handler.convertRastersToPng env (r ++ extra) width height
    = Handler.convertRastersToPng env r width height
  /\ Variant.convertRastersToPng env (r ++ extra) width height
    = Variant.convertRastersToPng env r width height.
Proof.
  intros Hr.
  assert (E : forall alpha,
             interleave alpha (r ++ extra) width height
             = interleave alpha r width height).
  { intros alpha. unfold interleave. apply for_loop_ext.
    intros i s. unfold interleave_pixel.
    rewrite (band_sample_app r extra 0 i) by lia.
    destruct (band_sample r 0 i); [cbn [bind] | reflexivity].
    rewrite (band_sample_app r extra 1 i) by lia.
    destruct (band_sample r 1 i); [cbn [bind] | reflexivity].
    rewrite (band_sample_app r extra 2 i) by lia. reflexivity. }
  unfold Handler.convertRastersToPng, Handler.rgbaBuffer,
    Variant.convertRastersToPng, Variant.rgbaBuffer.
  rewrite !E. split; reflexivity.
Qed.

Lemma convertRastersToPng_ignores_extra_bands_witness :
  Handler.convertRastersToPng Sample.env
      (Fixture.wide_bands ++ Fixture.extra_band) 2 1
    = Handler.convertRastersToPng Sample.env Fixture.wide_bands 2 1
  /\ Variant.convertRastersToPng Sample.env
      (Fixture.wide_bands ++ Fixture.extra_band) 2 1
    = Variant.convertRastersToPng Sample.env Fixture.wide_bands 2 1.
Proof.
  apply (convertRastersToPng_ignores_extra_bands Sample.env
           Fixture.wide_bands Fixture.extra_band 2 1).
  simpl. lia.
Defined.

(** With no pixel the loop body never runs, whatever the bands are: the
    encoder is called on the empty buffer, in both versions, also for a
    band set with fewer than three bands. *)
Theorem convertRastersToPng_no_pixel (env : Collaborators) (r : rasters)
    (width height : nat) :
  (width * height = 0)%nat ->
  Handler.convertRastersToPng env r width height
    = sharp_png env [] width height 4%nat
  /\ Variant.convertRastersToPng env r width height
    = sharp_png env [] width height 4%nat.
Proof.
  intros H.
  unfold Handler.convertRastersToPng, Handler.rgbaBuffer,
    Variant.convertRastersToPng, Variant.rgbaBuffer, interleave.
  rewrite H. split; reflexivity.
Qed.

Lemma convertRastersToPng_no_pixel_witness :
  Handler.convertRastersToPng Sample.env Sample.two_bands 256 0
    = sharp_png Sample.env [] 256%nat 0%nat 4%nat
  /\ Variant.convertRastersToPng Sample.env Sample.two_bands 256 0
    = sharp_png Sample.env [] 256%nat 0%nat 4%nat.
Proof.
  apply (convertRastersToPng_no_pixel Sample.env Sample.two_bands 256 0).
  lia.
Defined.

End PackedBuffer.

(** ** The pipeline end to end *)

Section Pipeline.

Lemma first_three_bands (r : rasters) :
  (3 <= length r)%nat ->
  exists band0 band1 band2 : list Z,
    r !! 0%nat = Some band0 /\ r !! 1%nat = Some band1
    /\ r !! 2%nat = Some band2.
Proof.
  intros Hr. destruct r as [|b0 [|b1 [|b2 r']]]; simpl in Hr; try lia.
  exists b0, b1, b2. repeat split.
Qed.

Lemma tile_of_params (env : Collaborators) (event : APIGatewayProxyEvent)
    (p : gmap string string) :
  pathParameters event = Some p ->
  Handler.tile env event =
  try_catch (let* data := Handler.fetchTiffData env (address_box p)
                            Handler.tileSize in
             Return (ok_response env data)).
Proof.
  intros Hp. unfold Handler.tile, Handler.tile_try, destructure.
  rewrite Hp. reflexivity.
Qed.

Lemma variant_tile_of_params (env : Collaborators)
    (event : APIGatewayProxyEvent) (p : gmap string string) :
  pathParameters event = Some p ->
  Variant.tile env event =
  try_catch (let* data := Variant.fetchTiffData env (variant_address_box p)
                            256%nat in
             Return (ok_response env data)).
Proof.
  intros Hp. unfold Variant.tile, Variant.tile_try, destructure.
  rewrite Hp. reflexivity.
Qed.

(** When every collaborator before the encoder succeeds and the decoder
    returns at least three bands, [tile] calls the encoder once, on a
    buffer of [256 * 256 * 4] bytes declared as 256 x 256 pixels of 4
    channels; if the encoder returns, the response has status 200, the
    content type [image/png] before the CORS headers and the base64 text of
    the encoder's output as its body; if the encoder throws, the response
    is the error response for that exception. *)
Theorem tile_success (env : Collaborators) (event : APIGatewayProxyEvent)
    (p : gmap string string) (fromUrl : string -> outcome GeoTIFF.Image)
    (url : string) (image : GeoTIFF.Image) (box : tuple4) (r : rasters) :
  pathParameters event = Some p ->
  import_geotiff env = Return fromUrl ->
  getSignedUrl env = Return url ->
  fromUrl url = Return image ->
  GeoTIFF.getBoundingBox image = Return box ->
  GeoTIFF.readRasters image (address_box p) = Return r ->
  (3 <= length r)%nat ->
  exists rgba : list Z,
    Handler.rgbaBuffer r Handler.tileSize Handler.tileSize = Return rgba
    /\ length rgba = (Handler.tileSize * Handler.tileSize * 4)%nat
    /\ (forall png : list Z,
          sharp_png env rgba Handler.tileSize Handler.tileSize 4%nat
            = Return png ->
          Handler.tile env event =
          {| statusCode := 200;
             headers := ("Content-Type", "image/png") :: cors_headers;
             body := Base64Body (base64 env png);
             isBase64Encoded := Some true |})
    /\ (forall e : exn,
          sharp_png env rgba Handler.tileSize Handler.tileSize 4%nat
            = Throw e ->
          Handler.tile env event = error_response e).
Proof.
  intros Hp Himport Hurl Himage Hbox Hread Hr.
  destruct (first_three_bands r Hr) as (b0 & b1 & b2 & H0 & H1 & H2).
  destruct (interleave_three 0 r b0 b1 b2 H0 H1 H2
              Handler.tileSize Handler.tileSize) as (rgba & Hrun & Hl & _).
  exists rgba. split; [exact Hrun|]. split; [exact Hl|].
  rewrite (tile_of_params env event p Hp).
  unfold Handler.fetchTiffData, Handler.convertRastersToPng,
    Handler.rgbaBuffer.
  rewrite Himport. cbn [bind]. rewrite Hurl. cbn [bind].
  rewrite Himage. cbn [bind]. rewrite Hbox. cbn [bind].
  rewrite Hread. cbn [bind]. rewrite Hrun. cbn [bind].
  split; intros x Hx; rewrite Hx; reflexivity.
Qed.

Lemma tile_success_witness :
  exists rgba : list Z,
    Handler.rgbaBuffer Sample.three_bands Handler.tileSize Handler.tileSize
      = Return rgba
    /\ length rgba = (Handler.tileSize * Handler.tileSize * 4)%nat
    /\ (forall png : list Z,
          sharp_png (Fixture.env_of (Fixture.image_of Sample.three_bands))
            rgba Handler.tileSize Handler.tileSize 4%nat = Return png ->
          Handler.tile (Fixture.env_of (Fixture.image_of Sample.three_bands))
            Fixture.event_ok =
          {| statusCode := 200;
             headers := ("Content-Type", "image/png") :: cors_headers;
             body := Base64Body
                       (base64 (Fixture.env_of
                                  (Fixture.image_of Sample.three_bands)) png);
             isBase64Encoded := Some true |})
    /\ (forall e : exn,
          sharp_png (Fixture.env_of (Fixture.image_of Sample.three_bands))
            rgba Handler.tileSize Handler.tileSize 4%nat = Throw e ->
          Handler.tile (Fixture.env_of (Fixture.image_of Sample.three_bands))
            Fixture.event_ok = error_response e).
Proof.
  apply (tile_success (Fixture.env_of (Fixture.image_of Sample.three_bands))
           Fixture.event_ok Fixture.params_ok
           (fun _ => Return (Fixture.image_of Sample.three_bands))
           "https://bucket/output_cog.tif"
           (Fixture.image_of Sample.three_bands)
           (int 100, int 488, int 1124, int 1000) Sample.three_bands);
    solve [reflexivity | simpl; lia].
Defined.

(** The first stage that throws decides the response: a request with no
    path parameters is answered with the [TypeError] of the destructuring
    without any collaborator being consulted, and a failure of the import,
    of the signed URL, of the opening of the raster, of [getBoundingBox]
    (whose value is only logged) or of [readRasters] is answered with the
    error response for the exception of that stage. *)
Theorem tile_first_failure (env : Collaborators)
    (event : APIGatewayProxyEvent) :
  (pathParameters event = None ->
   Handler.tile env event =
   error_response
     (TypeError "Cannot destructure property 'z' of 'event.pathParameters' as it is null."))
  /\ (forall (p : gmap string string) (e : exn),
        pathParameters event = Some p ->
        import_geotiff env = Throw e ->
        Handler.tile env event = error_response e)
  /\ (forall (p : gmap string string) fromUrl (e : exn),
        pathParameters event = Some p ->
        import_geotiff env = Return fromUrl ->
        getSignedUrl env = Throw e ->
        Handler.tile env event = error_response e)
  /\ (forall (p : gmap string string) fromUrl (url : string) (e : exn),
        pathParameters event = Some p ->
        import_geotiff env = Return fromUrl ->
        getSignedUrl env = Return url ->
        fromUrl url = Throw e ->
        Handler.tile env event = error_response e)
  /\ (forall (p : gmap string string) fromUrl (url : string)
             (image : GeoTIFF.Image) (e : exn),
        pathParameters event = Some p ->
        import_geotiff env = Return fromUrl ->
        getSignedUrl env = Return url ->
        fromUrl url = Return image ->
        GeoTIFF.getBoundingBox image = Throw e ->
        Handler.tile env event = error_response e)
  /\ (forall (p : gmap string string) fromUrl (url : string)
             (image : GeoTIFF.Image) (box : tuple4) (e : exn),
        pathParameters event = Some p ->
        import_geotiff env = Return fromUrl ->
        getSignedUrl env = Return url ->
        fromUrl url = Return image ->
        GeoTIFF.getBoundingBox image = Return box ->
        GeoTIFF.readRasters image (address_box p) = Throw e ->
        Handler.tile env event = error_response e).
Proof.
  split.
  { intros Hp. unfold Handler.tile, Handler.tile_try, destructure.
    rewrite Hp. reflexivity. }
  repeat split; intros;
    rewrite (tile_of_params env event p) by assumption;
    unfold Handler.fetchTiffData;
    repeat match goal with
           | H : _ = Return _ |- _ => rewrite H; cbn [bind]; clear H
           | H : _ = Throw _ |- _ => rewrite H; cbn [bind]; clear H
           end; reflexivity.
Qed.

(** The earlier version does not call [getBoundingBox]: for a raster whose
    [getBoundingBox] throws, [handler.ts] answers with the error response
    for that exception, and the earlier version goes on to read and encode
    the rasters. *)
Theorem tile_unreferenced_raster (env : Collaborators)
    (event : APIGatewayProxyEvent) (p : gmap string string)
    (fromUrl : string -> outcome GeoTIFF.Image) (url : string)
    (image : GeoTIFF.Image) (e : exn) :
  pathParameters event = Some p ->
  import_geotiff env = Return fromUrl ->
  getSignedUrl env = Return url ->
  fromUrl url = Return image ->
  GeoTIFF.getBoundingBox image = Throw e ->
  Handler.tile env event = error_response e
  /\ Variant.tile env event =
     try_catch
       (let* r := GeoTIFF.readRasters image (variant_address_box p) in
        let* png := Variant.convertRastersToPng env r 256%nat 256%nat in
        Return (ok_response env
                  {| buffer := png; contentType := "image/png" |})).
Proof.
  intros Hp Himport Hurl Himage Hbox. split.
  - rewrite (tile_of_params env event p Hp). unfold Handler.fetchTiffData.
    rewrite Himport. cbn [bind]. rewrite Hurl. cbn [bind].
    rewrite Himage. cbn [bind]. rewrite Hbox. reflexivity.
  - rewrite (variant_tile_of_params env event p Hp).
    unfold Variant.fetchTiffData.
    rewrite Himport. cbn [bind]. rewrite Hurl. cbn [bind].
    rewrite Himage. cbn [bind].
    destruct (GeoTIFF.readRasters image (variant_address_box p)) as [r|e'];
      cbn [bind]; [|reflexivity].
    destruct (Variant.convertRastersToPng env r 256 256); reflexivity.
Qed.

Lemma tile_unreferenced_raster_witness :
  Handler.tile
      (Fixture.env_of (Fixture.image_unreferenced Sample.three_bands))
      Fixture.event_ok
    = error_response
        (Failure "The image does not have an affine transformation.")
  /\ Variant.tile
      (Fixture.env_of (Fixture.image_unreferenced Sample.three_bands))
      Fixture.event_ok =
     try_catch
       (let* r :=
          GeoTIFF.readRasters (Fixture.image_unreferenced Sample.three_bands)
            (variant_address_box Fixture.params_ok) in
        let* png :=
          Variant.convertRastersToPng
            (Fixture.env_of (Fixture.image_unreferenced Sample.three_bands))
            r 256%nat 256%nat in
        Return (ok_response
                  (Fixture.env_of
                     (Fixture.image_unreferenced Sample.three_bands))
                  {| buffer := png; contentType := "image/png" |})).
Proof.
  apply (tile_unreferenced_raster
           (Fixture.env_of (Fixture.image_unreferenced Sample.three_bands))
           Fixture.event_ok Fixture.params_ok
           (fun _ => Return (Fixture.image_unreferenced Sample.three_bands))
           "https://bucket/output_cog.tif"
           (Fixture.image_unreferenced Sample.three_bands)
           (Failure "The image does not have an affine transformation."));
    reflexivity.
Defined.

(** When the decoder returns fewer than three bands, the compositor throws
    a [TypeError] on the first pixel, the encoder is not called, and the
    response of [tile] is the error response for that [TypeError], with
    status 500. *)
Theorem tile_insufficient_bands (env : Collaborators)
    (event : APIGatewayProxyEvent) (p : gmap string string)
    (fromUrl : string -> outcome GeoTIFF.Image) (url : string)
    (image : GeoTIFF.Image) (box : tuple4) (r : rasters) :
  pathParameters event = Some p ->
  import_geotiff env = Return fromUrl ->
  getSignedUrl env = Return url ->
  fromUrl url = Return image ->
  GeoTIFF.getBoundingBox image = Return box ->
  GeoTIFF.readRasters image (address_box p) = Return r ->
  (length r < 3)%nat ->
  exists message : string,
    Handler.convertRastersToPng env r Handler.tileSize Handler.tileSize
      = Throw (TypeError message)
    /\ Handler.tile env event = error_response (TypeError message)
    /\ statusCode (Handler.tile env event) = 500%Z.
Proof.
  intros Hp Himport Hurl Himage Hbox Hread Hr.
  exists "Cannot read properties of undefined".
  assert (Hthrow : Handler.convertRastersToPng env r
                     Handler.tileSize Handler.tileSize
                   = Throw (TypeError "Cannot read properties of undefined")).
  { unfold Handler.convertRastersToPng, Handler.rgbaBuffer.
    rewrite interleave_missing_band;
      [reflexivity | exact Hr | unfold Handler.tileSize; lia]. }
  assert (E : Handler.tile env event
              = error_response
                  (TypeError "Cannot read properties of undefined")).
  { rewrite (tile_of_params env event p Hp).
    unfold Handler.fetchTiffData.
    rewrite Himport. cbn [bind]. rewrite Hurl. cbn [bind].
    rewrite Himage. cbn [bind]. rewrite Hbox. cbn [bind].
    rewrite Hread. cbn [bind]. rewrite Hthrow. reflexivity. }
  split; [exact Hthrow|]. split; [exact E|]. rewrite E. reflexivity.
Qed.

Lemma tile_insufficient_bands_witness :
  exists message : string,
    Handler.convertRastersToPng
        (Fixture.env_of (Fixture.image_of Sample.two_bands))
        Sample.two_bands Handler.tileSize Handler.tileSize
      = Throw (TypeError message)
    /\ Handler.tile (Fixture.env_of (Fixture.image_of Sample.two_bands))
         Fixture.event_ok = error_response (TypeError message)
    /\ statusCode (Handler.tile
                     (Fixture.env_of (Fixture.image_of Sample.two_bands))
                     Fixture.event_ok) = 500%Z.
Proof.
  apply (tile_insufficient_bands
           (Fixture.env_of (Fixture.image_of Sample.two_bands))
           Fixture.event_ok Fixture.params_ok
           (fun _ => Return (Fixture.image_of Sample.two_bands))
           "https://bucket/output_cog.tif"
           (Fixture.image_of Sample.two_bands)
           (int 100, int 488, int 1124, int 1000) Sample.two_bands);
    solve [reflexivity | simpl; lia].
Defined.

Lemma fetchTiffData_contentType (env : Collaborators) (bbox : tuple4)
    (size : nat) (data : TiffData) :
  Handler.fetchTiffData env bbox size = Return data
  \/ Variant.fetchTiffData env bbox size = Return data ->
  contentType data = "image/png".
Proof.
  unfold Handler.fetchTiffData, Variant.fetchTiffData.
  destruct (import_geotiff env) as [fromUrl|]; cbn [bind];
    [|intros [H | H]; discriminate].
  destruct (getSignedUrl env) as [url|]; cbn [bind];
    [|intros [H | H]; discriminate].
  destruct (fromUrl url) as [image|]; cbn [bind];
    [|intros [H | H]; discriminate].
  intros [H | H].
  - destruct (GeoTIFF.getBoundingBox image); cbn [bind] in H; [|discriminate].
    destruct (GeoTIFF.readRasters image bbox) as [r|]; cbn [bind] in H;
      [|discriminate].
    destruct (Handler.convertRastersToPng env r size size); cbn [bind] in H;
      [|discriminate].
    injection H as <-. reflexivity.
  - destruct (GeoTIFF.readRasters image bbox) as [r|]; cbn [bind] in H;
      [|discriminate].
    destruct (Variant.convertRastersToPng env r size size); cbn [bind] in H;
      [|discriminate].
    injection H as <-. reflexivity.
Qed.

Lemma response_shape (env : Collaborators) (fetched : outcome TiffData) :
  (forall data, fetched = Return data -> contentType data = "image/png") ->
  let response :=
    try_catch (let* data := fetched in Return (ok_response env data)) in
  (statusCode response = 200%Z
   /\ headers response = ("Content-Type", "image/png") :: cors_headers
   /\ isBase64Encoded response = Some true
   /\ exists png : list Z, body response = Base64Body (base64 env png))
  \/ (statusCode response = 500%Z
      /\ headers response = cors_headers
      /\ isBase64Encoded response = None
      /\ exists e : exn,
          body response = ErrorBody ("An error occurred " +:+ exn_toString e)).
Proof.
  intros Hct. destruct fetched as [data|e]; cbn [bind try_catch].
  - left. unfold ok_response. cbn [statusCode headers isBase64Encoded body].
    rewrite (Hct data eq_refl). repeat split. exists (buffer data). reflexivity.
  - right. repeat split. exists e. reflexivity.
Qed.

(** Every response carries the three CORS headers.  A response of status
    200 has the content type [image/png] before them, is flagged as base64
    and has the base64 text of a buffer as its body; a response of status
    500 has no content type, no flag, and a body made of the text
    [An error occurred] followed by the exception.  There is no other
    response, in either version. *)
Theorem tile_response_shape (env : Collaborators)
    (event : APIGatewayProxyEvent) (response : APIGatewayProxyResult) :
  response = Handler.tile env event \/ response = Variant.tile env event ->
  (statusCode response = 200%Z
   /\ headers response = ("Content-Type", "image/png") :: cors_headers
   /\ isBase64Encoded response = Some true
   /\ exists png : list Z, body response = Base64Body (base64 env png))
  \/ (statusCode response = 500%Z
      /\ headers response = cors_headers
      /\ isBase64Encoded response = None
      /\ exists e : exn,
          body response = ErrorBody ("An error occurred " +:+ exn_toString e)).
Proof.
  intros [-> | ->].
  - unfold Handler.tile, Handler.tile_try.
    destruct (destructure event) as [[[z x] y]|e]; cbn [bind].
    + apply response_shape. intros data Hd.
      eapply fetchTiffData_contentType. left. exact Hd.
    + right. repeat split. exists e. reflexivity.
  - unfold Variant.tile, Variant.tile_try.
    destruct (destructure event) as [[[z x] y]|e]; cbn [bind].
    + apply response_shape. intros data Hd.
      eapply fetchTiffData_contentType. right. exact Hd.
    + right. repeat split. exists e. reflexivity.
Qed.

Lemma tile_response_shape_witness :
  (statusCode (Handler.tile Sample.env Fixture.event_null) = 200%Z
   /\ headers (Handler.tile Sample.env Fixture.event_null)
      = ("Content-Type", "image/png") :: cors_headers
   /\ isBase64Encoded (Handler.tile Sample.env Fixture.event_null) = Some true
   /\ exists png : list Z,
       body (Handler.tile Sample.env Fixture.event_null)
       = Base64Body (base64 Sample.env png))
  \/ (statusCode (Handler.tile Sample.env Fixture.event_null) = 500%Z
      /\ headers (Handler.tile Sample.env Fixture.event_null) = cors_headers
      /\ isBase64Encoded (Handler.tile Sample.env Fixture.event_null) = None
      /\ exists e : exn,
          body (Handler.tile Sample.env Fixture.event_null)
          = ErrorBody ("An error occurred " +:+ exn_toString e)).
Proof.
  apply (tile_response_shape Sample.env Fixture.event_null
           (Handler.tile Sample.env Fixture.event_null)).
  left. reflexivity.
Defined.

End Pipeline.


(** ** The accessor of the decoder in [webMercatorToPixel] *)

Section DecoderAccessor.

(** C2.  With the accessor of the decoder the handler imports, whose
    [getResolution()] returns the array [[x, y, z]], the division by the
    resolution gives [NaN] and [webMercatorToPixel] returns four [NaN] for
    every box, the raster's own extent included, where the claim has the
    window [(0, 0, rasterWidth, rasterHeight)]. *)
Theorem webMercatorToPixel_geotiff_resolution (width height : num)
    (origin resolution : num * num * num) (boundingBox : outcome tuple4)
    (read : tuple4 -> outcome rasters) (bbox : tuple4) :
  let image :=
    geotiff_image width height origin resolution boundingBox read in
  Handler.webMercatorToPixel bbox image = (NaN, NaN, NaN, NaN)
  /\ Handler.webMercatorToPixel (fullExtent image) image = (NaN, NaN, NaN, NaN).
Proof.
  assert (H : forall b,
             Handler.webMercatorToPixel b
               (geotiff_image width height origin resolution boundingBox read)
             = (NaN, NaN, NaN, NaN)).
  { intros [[[minX minY] maxX] maxY].
    destruct origin as [[ox oy] oz]. destruct resolution as [[rx ry] rz].
    unfold Handler.webMercatorToPixel, Handler.imageResolution, geotiff_image.
    cbn [GeoTIFF.getWidth GeoTIFF.getHeight GeoTIFF.getOrigin
         GeoTIFF.getResolution ToNumber_array].
    rewrite !div_NaN_r. reflexivity. }
  intros image. split; apply H.
Qed.

End DecoderAccessor.

(** ** Tile addressing in binary64 *)

Section Binary64Addressing.

Import PrimFloat.
Import PrimFloat.PrimFloatNotations.
Import Binary64.
#[local] Open Scope float_scope.
#[local] Set Warnings "-inexact-float".

Lemma all_from_spec (n : nat) :
  forall (lo : Z) (P : Z -> bool),
    all_from n lo P = true ->
    forall k : Z, (lo <= k < lo + Z.of_nat n)%Z -> P k = true.
Proof.
  induction n as [|n IH]; intros lo P H k Hk; [lia|].
  simpl in H. apply andb_prop in H as [H1 H2].
  destruct (Z.eq_dec k lo) as [->|Hne]; [exact H1|].
  apply (IH (lo + 1)%Z P H2). lia.
Qed.

Lemma all_tiles_spec (zooms : nat) (P : Z -> Z -> bool) :
  all_tiles zooms P = true ->
  forall z i : Z,
    (0 <= z < Z.of_nat zooms)%Z -> (0 <= i < 2 ^ z)%Z -> P z i = true.
Proof.
  intros H z i Hz Hi. unfold all_tiles in H.
  pose proof (all_from_spec zooms 0 _ H z ltac:(lia)) as Hrow.
  cbv beta in Hrow.
  apply (all_from_spec _ 0 _ Hrow i).
  rewrite Z2Nat.id by (apply Z.pow_nonneg; lia). lia.
Qed.

(** The box of the request [/3/1/2], as the handler computes it. *)
Example tileToWebMercator_3_1_2 :
  tileToWebMercator (parseInt "1") (parseInt "2") (parseInt "3")
  = (-15028131.257091898, 5009377.085697301,
     -10018754.1713946, 10018754.1713946).
Proof. vm_compute. reflexivity. Qed.

(** C7, as stated, fails at zoom 1015: [256 * 2^1016] is [Infinity], so
    the resolution of zoom 1016 is 0, and half the resolution of zoom 1015
    is not. *)
Lemma getResolution_1015_not_halved :
  (tileSize * pow2 (of_Z 1016) =? infinity) = true
  /\ (getResolution (of_Z 1016) =? 0) = true
  /\ (0 <? getResolution (of_Z 1015) / 2) = true
  /\ (getResolution (of_Z (1015 + 1)) =? getResolution (of_Z 1015) / 2) = false.
Proof. vm_compute. repeat split. Qed.

(** C7, amended.  For every zoom [0 <= z <= 1014] the resolution halves
    exactly when the zoom grows by one:
    [getResolution(z+1) = getResolution(z) / 2] in binary64. *)
Theorem getResolution_halves_binary64 (z : Z) :
  (0 <= z <= 1014)%Z ->
  (getResolution (of_Z (z + 1)) =? getResolution (of_Z z) / 2) = true.
Proof.
  intros Hz.
  assert (H : all_from 1015 0 halves = true) by (vm_compute; reflexivity).
  exact (all_from_spec 1015 0 halves H z ltac:(lia)).
Qed.

Lemma getResolution_halves_binary64_witness :
  (getResolution (of_Z (3 + 1)) =? getResolution (of_Z 3) / 2) = true.
Proof. apply (getResolution_halves_binary64 3). lia. Defined.







End Binary64Addressing.

(** ** The tile grid in binary64 *)

Section Binary64Grid.

Import PrimFloat.
Import PrimFloat.PrimFloatNotations.
Import Binary64.
#[local] Open Scope float_scope.
#[local] Set Warnings "-inexact-float".

(** For every zoom [0 <= z <= 1014], the resolution of the next zoom is
    positive and smaller. *)
Theorem getResolution_decreasing_binary64 (z : Z) :
  (0 <= z <= 1014)%Z ->
  (0 <? getResolution (of_Z (z + 1))) = true
  /\ (getResolution (of_Z (z + 1)) <? getResolution (of_Z z)) = true.
Proof.
  intros Hz.
  assert (H : all_from 1015 0 decreasing = true) by (vm_compute; reflexivity).
  pose proof (all_from_spec 1015 0 decreasing H z ltac:(lia)) as Hd.
  apply andb_prop in Hd as [H1 H2]. split; [exact H1 | exact H2].
Qed.

Lemma getResolution_decreasing_binary64_witness :
  (0 <? getResolution (of_Z (5 + 1))) = true
  /\ (getResolution (of_Z (5 + 1)) <? getResolution (of_Z 5)) = true.
Proof. apply (getResolution_decreasing_binary64 5). lia. Defined.

(** For every zoom [0 <= z <= 1015], the [2^z] tiles of a row are together
    exactly as wide as the extent:
    [tileSize * 2^z * getResolution(z) = 2 * webMercatorExtent]. *)
Theorem zoom_level_spans_extent_binary64 (z : Z) :
  (0 <= z <= 1015)%Z ->
  (tileSize * pow2 (of_Z z) * getResolution (of_Z z)
   =? 2 * webMercatorExtent) = true.
Proof.
  intros Hz.
  assert (H : all_from 1016 0 spans = true) by (vm_compute; reflexivity).
  exact (all_from_spec 1016 0 spans H z ltac:(lia)).
Qed.

Lemma zoom_level_spans_extent_binary64_witness :
  (tileSize * pow2 (of_Z 7) * getResolution (of_Z 7)
   =? 2 * webMercatorExtent) = true.
Proof. apply (zoom_level_spans_extent_binary64 7). lia. Defined.

(** For the zooms 0 to 16 and every column and row of the zoom, the box is
    a proper box within the extent:
    [-ext <= minX < maxX <= ext] and [-ext <= minY < maxY <= ext]. *)
Theorem tileToWebMercator_proper_within_extent (z c r : Z) :
  (0 <= z <= 16)%Z -> (0 <= c < 2 ^ z)%Z -> (0 <= r < 2 ^ z)%Z ->
  let b := tileToWebMercator (of_Z c) (of_Z r) (of_Z z) in
  (- webMercatorExtent <=? minX b) = true
  /\ (minX b <? maxX b) = true
  /\ (maxX b <=? webMercatorExtent) = true
  /\ (- webMercatorExtent <=? minY b) = true
  /\ (minY b <? maxY b) = true
  /\ (maxY b <=? webMercatorExtent) = true.
Proof.
  intros Hz Hc Hr b. subst b.
  assert (HX : all_tiles 17 columns_inside = true)
    by (vm_compute; reflexivity).
  assert (HY : all_tiles 17 rows_inside = true) by (vm_compute; reflexivity).
  pose proof (all_tiles_spec 17 columns_inside HX z c ltac:(lia) Hc) as Hcol.
  pose proof (all_tiles_spec 17 rows_inside HY z r ltac:(lia) Hr) as Hrow.
  apply andb_prop in Hcol as [Hcol H3]. apply andb_prop in Hcol as [H1 H2].
  apply andb_prop in Hrow as [Hrow H6]. apply andb_prop in Hrow as [H4 H5].
  repeat split; [exact H1 | exact H2 | exact H3 | exact H4 | exact H5 | exact H6].
Qed.

Lemma tileToWebMercator_proper_within_extent_witness :
  let b := tileToWebMercator (of_Z 3) (of_Z 0) (of_Z 2) in
  (- webMercatorExtent <=? minX b) = true
  /\ (minX b <? maxX b) = true
  /\ (maxX b <=? webMercatorExtent) = true
  /\ (- webMercatorExtent <=? minY b) = true
  /\ (minY b <? maxY b) = true
  /\ (maxY b <=? webMercatorExtent) = true.
Proof.
  apply (tileToWebMercator_proper_within_extent 2 3 0); simpl; lia.
Defined.

(** For the zooms 0 to 15, a tile [(c, r)] and its children at the next
    zoom: the child [(2c, 2r)] has the top-left corner of the tile, the
    child [(2c+1, 2r+1)] its bottom-right corner, and the two meet at the
    centre, exactly. *)
Theorem tileToWebMercator_children_binary64 (z c r : Z) :
  (0 <= z <= 15)%Z -> (0 <= c < 2 ^ z)%Z -> (0 <= r < 2 ^ z)%Z ->
  let parent := tileToWebMercator (of_Z c) (of_Z r) (of_Z z) in
  let first :=
    tileToWebMercator (of_Z (2 * c)) (of_Z (2 * r)) (of_Z (z + 1)) in
  let last :=
    tileToWebMercator (of_Z (2 * c + 1)) (of_Z (2 * r + 1)) (of_Z (z + 1)) in
  (minX first =? minX parent) = true
  /\ (maxY first =? maxY parent) = true
  /\ (maxX last =? maxX parent) = true
  /\ (minY last =? minY parent) = true
  /\ (maxX first =? minX last) = true
  /\ (minY first =? maxY last) = true.
Proof.
  intros Hz Hc Hr parent first last. subst parent first last.
  assert (HX : all_tiles 16 columns_split = true) by (vm_compute; reflexivity).
  assert (HY : all_tiles 16 rows_split = true) by (vm_compute; reflexivity).
  pose proof (all_tiles_spec 16 columns_split HX z c ltac:(lia) Hc) as Hcol.
  pose proof (all_tiles_spec 16 rows_split HY z r ltac:(lia) Hr) as Hrow.
  apply andb_prop in Hcol as [Hcol H3]. apply andb_prop in Hcol as [H1 H2].
  apply andb_prop in Hrow as [Hrow H6]. apply andb_prop in Hrow as [H4 H5].
  repeat split; [exact H1 | exact H4 | exact H2 | exact H5 | exact H3 | exact H6].
Qed.

Lemma tileToWebMercator_children_binary64_witness :
  let parent := tileToWebMercator (of_Z 1) (of_Z 2) (of_Z 2) in
  let first :=
    tileToWebMercator (of_Z (2 * 1)) (of_Z (2 * 2)) (of_Z (2 + 1)) in
  let last :=
    tileToWebMercator (of_Z (2 * 1 + 1)) (of_Z (2 * 2 + 1)) (of_Z (2 + 1)) in
  (minX first =? minX parent) = true
  /\ (maxY first =? maxY parent) = true
  /\ (maxX last =? maxX parent) = true
  /\ (minY last =? minY parent) = true
  /\ (maxX first =? minX last) = true
  /\ (minY first =? maxY last) = true.
Proof.
  apply (tileToWebMercator_children_binary64 2 1 2); simpl; lia.
Defined.

(** For every zoom [0 <= z <= 1015] the outer tiles reach the edges of the
    extent exactly: column 0 starts at [-ext], row 0 at [ext], and the last
    column and row, [2^z - 1], end at [ext] and [-ext]. *)
Theorem tileToWebMercator_outer_edges_binary64 (x y : number) (z : Z) :
  (0 <= z <= 1015)%Z ->
  (minX (tileToWebMercator (of_Z 0) y (of_Z z)) =? - webMercatorExtent) = true
  /\ (maxY (tileToWebMercator x (of_Z 0) (of_Z z)) =? webMercatorExtent) = true
  /\ (maxX (tileToWebMercator (of_Z (2 ^ z - 1)) y (of_Z z))
      =? webMercatorExtent) = true
  /\ (minY (tileToWebMercator x (of_Z (2 ^ z - 1)) (of_Z z))
      =? - webMercatorExtent) = true.
Proof.
  intros Hz.
  assert (H : all_from 1016 0 outer_edges = true) by (vm_compute; reflexivity).
  pose proof (all_from_spec 1016 0 outer_edges H z ltac:(lia)) as He.
  apply andb_prop in He as [He H4]. apply andb_prop in He as [He H3].
  apply andb_prop in He as [H1 H2].
  repeat split; [exact H1 | exact H2 | exact H3 | exact H4].
Qed.

Lemma tileToWebMercator_outer_edges_binary64_witness :
  (minX (tileToWebMercator (of_Z 0) 1 (of_Z 2)) =? - webMercatorExtent) = true
  /\ (maxY (tileToWebMercator 1 (of_Z 0) (of_Z 2)) =? webMercatorExtent) = true
  /\ (maxX (tileToWebMercator (of_Z (2 ^ 2 - 1)) 1 (of_Z 2))
      =? webMercatorExtent) = true
  /\ (minY (tileToWebMercator 1 (of_Z (2 ^ 2 - 1)) (of_Z 2))
      =? - webMercatorExtent) = true.
Proof. apply (tileToWebMercator_outer_edges_binary64 1 1 2). lia. Defined.

(** In the earlier version, for the zooms 0 to 15 and every row of the
    zoom: the second and fourth entries of the box grow with the row (the
    row axis is not inverted), and the height of the box doubles exactly
    when the zoom grows by one (resolution [0.00028 * 2^z]). *)
Theorem variant_tile_bbox_grows_binary64 (x y y' z z' : string) (n r : Z) :
  parseInt y = of_Z r -> parseInt y' = of_Z (r + 1) ->
  parseInt z = of_Z n -> parseInt z' = of_Z (n + 1) ->
  (0 <= n <= 15)%Z -> (0 <= r < 2 ^ n)%Z ->
  let b := tile_bbox x y z in
  let finer := tile_bbox x y z' in
  (minY b <? minY (tile_bbox x y' z)) = true
  /\ (maxY b <? maxY (tile_bbox x y' z)) = true
  /\ (maxY finer - minY finer =? 2 * (maxY b - minY b)) = true.
Proof.
  intros Hy Hy' Hz Hz' Hn Hr b finer. subst b finer.
  unfold tile_bbox, minY, maxY. cbn [fst snd].
  rewrite Hy, Hy', Hz, Hz'.
  assert (H : all_tiles 16 variant_rows = true) by (vm_compute; reflexivity).
  pose proof (all_tiles_spec 16 variant_rows H n r ltac:(lia) Hr) as Hrow.
  apply andb_prop in Hrow as [Hrow H3]. apply andb_prop in Hrow as [H1 H2].
  repeat split; [exact H1 | exact H2 | exact H3].
Qed.

Lemma variant_tile_bbox_grows_binary64_witness :
  let b := tile_bbox "1" "2" "3" in
  let finer := tile_bbox "1" "2" "4" in
  (minY b <? minY (tile_bbox "1" "3" "3")) = true
  /\ (maxY b <? maxY (tile_bbox "1" "3" "3")) = true
  /\ (maxY finer - minY finer =? 2 * (maxY b - minY b)) = true.
Proof.
  apply (variant_tile_bbox_grows_binary64 "1" "2" "3" "3" "4" 3 2);
    solve [vm_compute; reflexivity | simpl; lia].
Defined.

End Binary64Grid.
